(** * EDTIA: the room-code capture component (CameraCapture)

    A shallow embedding of the React component [CameraCapture] and of the
    helper functions it defines, followed by the properties of the
    specification that concern them.

    Conventions of the embedding.
    - A JavaScript string is the list of its UTF-16 code units, each a
      number [N]; regular expressions without the [u] flag work on code
      units, and so do [split], [endsWith] and [===].
    - A function that reads React state reads the value its closure
      captured: [const [x, setX] = useState(..)] binds a constant of one
      render, so every function of the component takes the [Snapshot] of
      the render that created it.  Cells made by [useRef] are shared and
      mutable: they are threaded through as [Refs].
    - What a function does to the outside world (state setters, camera,
      OCR engine, HTTP, timers, console) is returned as a list of [Event]s
      in program order.  What the outside world answers (the clock, the
      OCR result, a rejected promise) is an explicit argument.
    - An [async] function is run to completion as one step: the model does
      not interleave a timer tick with a handler that is suspended at an
      [await]. *)

From Stdlib Require Import ZArith NArith String Ascii List Bool Lia.
Import ListNotations.

(* ===================================================================== *)
(** ** JavaScript strings *)
(* ===================================================================== *)

Module Js.

Definition codeunit := N.
Definition jsstring := list codeunit.

(** A source literal made of ASCII characters only. *)
Definition lit (s : string) : jsstring :=
  map N_of_ascii (list_ascii_of_string s).

(** The code unit of an ASCII character. *)
Definition chr (a : ascii) : codeunit := N_of_ascii a.

(** [a === b] on strings. *)
Fixpoint str_eqb (a b : jsstring) : bool :=
  match a, b with
  | [], [] => true
  | x :: a', y :: b' => N.eqb x y && str_eqb a' b'
  | _, _ => false
  end.

(** A string is falsy exactly when it is empty. *)
Definition truthy_str (s : jsstring) : bool :=
  match s with [] => false | _ :: _ => true end.

(** The class [\s]: WhiteSpace and LineTerminator of ECMAScript.  It is
    also the set of code units that [trim] strips. *)
Definition is_space (c : codeunit) : bool :=
  ((9 <=? c) && (c <=? 13)          (* TAB LF VT FF CR *)
   || (c =? 32) || (c =? 160) || (c =? 5760)
   || ((8192 <=? c) && (c <=? 8202))  (* U+2000 .. U+200A *)
   || (c =? 8232) || (c =? 8233) || (c =? 8239) || (c =? 8287)
   || (c =? 12288) || (c =? 65279))%N.

(** [s.replace(/[class]/g, rep)]: every code unit of the class is
    replaced. *)
Fixpoint replace_class_g (cls : codeunit -> bool) (rep s : jsstring)
  : jsstring :=
  match s with
  | [] => []
  | c :: s' =>
      if cls c then rep ++ replace_class_g cls rep s'
      else c :: replace_class_g cls rep s'
  end.

(** [s.replace(/[class]+/g, rep)]: every maximal run of the class is
    replaced by one [rep].  [in_run] tells that the code unit before the
    current one belonged to a run, whose replacement is already out. *)
Fixpoint replace_runs_g (cls : codeunit -> bool) (rep : jsstring)
  (in_run : bool) (s : jsstring) : jsstring :=
  match s with
  | [] => []
  | c :: s' =>
      if cls c then
        (if in_run then [] else rep) ++ replace_runs_g cls rep true s'
      else c :: replace_runs_g cls rep false s'
  end.

Fixpoint trimStart (s : jsstring) : jsstring :=
  match s with
  | [] => []
  | c :: s' => if is_space c then trimStart s' else s
  end.

Definition trimEnd (s : jsstring) : jsstring := rev (trimStart (rev s)).

Definition trim (s : jsstring) : jsstring := trimEnd (trimStart s).

(** [s.split(sep)] for a separator of one code unit.  The result is
    never empty: the empty string splits into one empty string. *)
Fixpoint split_acc (sep : codeunit) (cur : jsstring) (s : jsstring)
  : list jsstring :=
  match s with
  | [] => [rev cur]
  | c :: s' =>
      if N.eqb c sep then rev cur :: split_acc sep [] s'
      else split_acc sep (c :: cur) s'
  end.

Definition split (sep : codeunit) (s : jsstring) : list jsstring :=
  split_acc sep [] s.

(** [s.endsWith(suffix)]. *)
Definition endsWith (s suffix : jsstring) : bool :=
  (length suffix <=? length s)%nat
  && str_eqb (skipn (length s - length suffix) s) suffix.

(** *** Regular expressions

    The fragment of the pattern language the component uses, with the
    backtracking semantics of ECMAScript: a matcher takes the position,
    the rest of the input and a continuation. *)
Inductive regex : Type :=
| RBol                                   (* ^ *)
| REol                                   (* $ *)
| RChar (c : codeunit)                   (* a literal *)
| RRange (lo hi : codeunit)              (* [lo-hi] *)
| ROneOf (cs : list codeunit)            (* [abc] *)
| RSeq (r1 r2 : regex)
| RRep (r : regex) (lo hi : nat).        (* r{lo,hi}, greedy *)

Definition cont := nat -> jsstring -> bool.

Definition one (p : codeunit -> bool) (pos : nat) (s : jsstring) (k : cont)
  : bool :=
  match s with
  | [] => false
  | c :: s' => p c && k (S pos) s'
  end.

Fixpoint repeat_match (m : nat -> jsstring -> cont -> bool) (lo hi : nat)
  (pos : nat) (s : jsstring) (k : cont) : bool :=
  match hi with
  | O => k pos s
  | S hi' =>
      m pos s (fun pos' s' => repeat_match m (Nat.pred lo) hi' pos' s' k)
      || (match lo with O => k pos s | S _ => false end)
  end.

Fixpoint rmatch (r : regex) (pos : nat) (s : jsstring) (k : cont) : bool :=
  match r with
  | RBol => Nat.eqb pos 0 && k pos s
  | REol => match s with [] => k pos s | _ :: _ => false end
  | RChar c => one (N.eqb c) pos s k
  | RRange lo hi => one (fun c => (lo <=? c)%N && (c <=? hi)%N) pos s k
  | ROneOf cs => one (fun c => existsb (N.eqb c) cs) pos s k
  | RSeq r1 r2 => rmatch r1 pos s (fun pos' s' => rmatch r2 pos' s' k)
  | RRep r lo hi => repeat_match (rmatch r) lo hi pos s k
  end.

(** [regex.test(s)] for a pattern without the [g] or [y] flag: a match
    is attempted at every start index, from 0 to the length of [s]. *)
Definition test (r : regex) (s : jsstring) : bool :=
  existsb (fun i => rmatch r i (skipn i s) (fun _ _ => true))
          (seq 0 (S (length s))).

End Js.

Import Js.

(* ===================================================================== *)
(** ** The pure helpers of the component *)
(* ===================================================================== *)

Definition is_oO (c : codeunit) : bool :=
  N.eqb c (chr "o") || N.eqb c (chr "O").

(** [text.replace(/[oO]/g, '0').replace(/\s+/g, '').trim()] *)
Definition preprocessText (text : jsstring) : jsstring :=
  trim (replace_runs_g is_space [] false
          (replace_class_g is_oO (lit "0") text)).

(** [/^M[0-9]{1,2}-T[DP]$/] *)
Definition room_regex : regex :=
  RSeq RBol
    (RSeq (RChar (chr "M"))
       (RSeq (RRep (RRange (chr "0") (chr "9")) 1 2)
          (RSeq (RChar (chr "-"))
             (RSeq (RChar (chr "T"))
                (RSeq (ROneOf [chr "D"; chr "P"]) REol))))).

Definition isValidFormat (text : jsstring) : bool := test room_regex text.

(** The [switch] of [getRoomId]; [None] is the [null] of the default
    case. *)
Definition getRoomId (text : jsstring) : option Z :=
  if str_eqb text (lit "M01-TD") then Some 12673%Z
  else if str_eqb text (lit "M02-TD") then Some 12981%Z
  else if str_eqb text (lit "M03-TP") then Some 19393%Z
  else if str_eqb text (lit "M05-TP") then Some 12680%Z
  else if str_eqb text (lit "M06-TP") then Some 43372%Z
  else if str_eqb text (lit "M07-TP") then Some 12677%Z
  else if str_eqb text (lit "M09-TP") then Some 12678%Z
  else if str_eqb text (lit "M10-TP") then Some 12679%Z
  else if str_eqb text (lit "M11-TD") then Some 12674%Z
  else if str_eqb text (lit "M13-TP") then Some 62575%Z
  else if str_eqb text (lit "M14-TD") then Some 13927%Z
  else None.

(** *** The words of the specification, for comparison *)

(** "replacing o/O by 0 and removing whitespace" *)
Definition spec_normalize (s : jsstring) : jsstring :=
  filter (fun c => negb (is_space c))
         (map (fun c => if is_oO c then chr "0" else c) s).

Definition is_digit (c : codeunit) : bool :=
  (chr "0" <=? c)%N && (c <=? chr "9")%N.

(** The token grammar: [M], one or two digits, [-T], then [D] or [P]. *)
Definition token_grammar (s : jsstring) : Prop :=
  exists ds x,
    s = chr "M" :: ds ++ [chr "-"; chr "T"; x]
    /\ (1 <= length ds <= 2)%nat
    /\ forallb is_digit ds = true
    /\ (x = chr "D" \/ x = chr "P").

(** [parts.join(sep)], the inverse of [split]. *)
Fixpoint join (sep : codeunit) (parts : list jsstring) : jsstring :=
  match parts with
  | [] => []
  | [p] => p
  | p :: rest => p ++ sep :: join sep rest
  end.

(** The eleven tokens of the room table. *)
Definition known_tokens : list jsstring :=
  map lit ["M01-TD"; "M02-TD"; "M03-TP"; "M05-TP"; "M06-TP"; "M07-TP";
           "M09-TP"; "M10-TP"; "M11-TD"; "M13-TP"; "M14-TD"]%string.

(* ===================================================================== *)
(** ** Values, state and events of the component *)
(* ===================================================================== *)

(** What [response.data] may hold. *)
#[local] Unset Elimination Schemes.
Inductive JsValue : Type :=
| JUndefined
| JNull
| JBool (b : bool)
| JNum (n : Z)
| JStr (s : jsstring)
| JArr (items : list JsValue)
| JObj (fields : list (jsstring * JsValue)).
#[local] Set Elimination Schemes.

Definition truthy (v : JsValue) : bool :=
  match v with
  | JUndefined | JNull => false
  | JBool b => b
  | JNum n => negb (Z.eqb n 0)
  | JStr s => truthy_str s
  | JArr _ | JObj _ => true
  end.

Definition isArray (v : JsValue) : bool :=
  match v with JArr _ => true | _ => false end.

(** One element of [payload.salle]. *)
Record Room : Type := mkRoom {
  room_id : Z;
  room_title : jsstring;
  room_eventColor : jsstring
}.

Definition Worker := nat.          (* identity of an OCR worker *)
Definition Track := nat.           (* identity of a media track *)
Definition Stream := list Track.   (* [stream.getTracks()] *)

(** The values of the [useState] cells as one render sees them. *)
Record Snapshot : Type := mkSnapshot {
  extractedText : jsstring;
  isAnalyzing : bool;
  hasValidResult : bool;
  isFrontCamera : bool;
  day : JsValue;
  isCalendarOpen : bool;
  calendarEvents : JsValue;
  isLoading : bool
}.

(** The [useRef] cells.  [videoRef] and [canvasRef] tell whether
    [.current] holds the element. *)
Record Refs : Type := mkRefs {
  videoRef : bool;
  canvasRef : bool;
  workerRef : option Worker;
  streamRef : option Stream;
  lastSuccessRef : Z;
  analysisCountRef : Z
}.

(** A function handed to [setTimeout] or [setInterval], with the render
    whose constants it closes over. *)
Inductive Callback : Type :=
| CbInitializeCamera (snap : Snapshot)
| CbStartAnalysis (snap : Snapshot)
| CbAnalyzeLoop (snap : Snapshot).

Inductive LogMsg : Type :=
| MsgTesseractInitError
| MsgCameraError
| MsgReinit
| MsgReinitError
| MsgApiResponse (data : JsValue)
| MsgApiError
| MsgValidFormat (processed : jsstring)
| MsgAnalysisError.

Inductive Event : Type :=
| SetExtractedText (s : jsstring)
| SetIsAnalyzing (b : bool)
| SetHasValidResult (b : bool)
| SetIsFrontCamera (b : bool)
| SetDay (d : JsValue)
| SetIsCalendarOpen (b : bool)
| SetCalendarEvents (d : JsValue)
| SetIsLoading (b : bool)
| TrackStop (t : Track)
| GetUserMedia (front : bool)
| SetSrcObject (s : Stream)
| DrawImage
| ToDataURL
| Terminate (w : Worker)
| CreateWorker
| LoadLanguage (w : Worker)
| Initialize (w : Worker)
| SetParameters (w : Worker)
| Recognize (w : Worker) (frame : jsstring)
| HttpPost (date : jsstring) (salle : list Room)
| SetTimeout (ms : Z) (cb : Callback)
| SetInterval (ms : Z) (cb : Callback)
| ClearInterval
| ConsoleLog (m : LogMsg)
| ConsoleError (m : LogMsg).

(** *** What the environment answers *)

(** The answers of the OCR library while a worker is torn down and set
    up: [false] and [None] stand for a rejected promise. *)
Record WorkerSetup : Type := mkWorkerSetup {
  terminate_ok : bool;
  created : option Worker;
  loadLanguage_ok : bool;
  initialize_ok : bool;
  setParameters_ok : bool;
  clock_after : Z                 (* [Date.now()] once the set-up is done *)
}.

Inductive OcrOutcome : Type :=
| OcrThrows
| OcrText (text : option jsstring).  (* [result.data.text], if defined *)

Record AnalyzeEnv : Type := mkAnalyzeEnv {
  now : Z;                        (* [Date.now()] at the attempt *)
  reinit : WorkerSetup;
  ocr : OcrOutcome
}.

Record TickEnv : Type := mkTickEnv {
  setup_missing : WorkerSetup;    (* used when [workerRef] is empty *)
  dataURL : jsstring;             (* [canvas.toDataURL('image/jpeg')] *)
  analyze : AnalyzeEnv
}.

Inductive HttpOutcome : Type :=
| HttpThrows
| HttpResponse (status : Z) (data : JsValue).

Record EffectEnv : Type := mkEffectEnv {
  today : jsstring;               (* [format(new Date(), 'yyyy-MM-dd')] *)
  http : HttpOutcome
}.

(* ===================================================================== *)
(** ** The functions of the component *)
(* ===================================================================== *)

Open Scope Z_scope.

(** [n++] on a JavaScript number that holds a count: exact below 2^53,
    where the successor is no longer representable and rounds back. *)
Definition js_succ (n : Z) : Z :=
  if n <? 9007199254740992 then n + 1 else n.

Definition set_worker (r : Refs) (w : option Worker) : Refs :=
  mkRefs (videoRef r) (canvasRef r) w (streamRef r)
         (lastSuccessRef r) (analysisCountRef r).

Definition set_stream (r : Refs) (s : option Stream) : Refs :=
  mkRefs (videoRef r) (canvasRef r) (workerRef r) s
         (lastSuccessRef r) (analysisCountRef r).

Definition set_lastSuccess (r : Refs) (t : Z) : Refs :=
  mkRefs (videoRef r) (canvasRef r) (workerRef r) (streamRef r)
         t (analysisCountRef r).

Definition set_analysisCount (r : Refs) (n : Z) : Refs :=
  mkRefs (videoRef r) (canvasRef r) (workerRef r) (streamRef r)
         (lastSuccessRef r) n.

(** The four awaited calls that [initializeTesseract] and
    [reinitializeWorker] share:
    [workerRef.current = await createWorker(); loadLanguage; initialize;
    setParameters].  The boolean tells whether all of them resolved; the
    reference is assigned as soon as [createWorker] has. *)
Definition create_and_configure (r : Refs) (e : WorkerSetup)
  : Refs * list Event * bool :=
  match created e with
  | None => (r, [CreateWorker], false)
  | Some w =>
      let r1 := set_worker r (Some w) in
      if negb (loadLanguage_ok e) then
        (r1, [CreateWorker; LoadLanguage w], false)
      else if negb (initialize_ok e) then
        (r1, [CreateWorker; LoadLanguage w; Initialize w], false)
      else
        (r1, [CreateWorker; LoadLanguage w; Initialize w; SetParameters w],
         setParameters_ok e)
  end.

Definition initializeTesseract (r : Refs) (e : WorkerSetup)
  : Refs * list Event :=
  let '(r1, evs, ok) := create_and_configure r e in
  (r1, evs ++ (if ok then [] else [ConsoleError MsgTesseractInitError])).

Definition stopCurrentStream (r : Refs) : list Event :=
  match streamRef r with
  | Some tracks => map TrackStop tracks
  | None => []
  end.

Definition startAnalysis (snap : Snapshot) : list Event :=
  if hasValidResult snap then []
  else [SetIsAnalyzing true; SetInterval 500 (CbAnalyzeLoop snap)].

Definition camera_error_text : jsstring :=
  lit "Erreur d'acc" ++ [232%N] ++ lit "s " ++ [224%N] ++ lit " la cam"
    ++ [233%N] ++ lit "ra".

(** [media] is what [getUserMedia] resolves to, [None] when it rejects. *)
Definition initializeCamera (snap : Snapshot) (r : Refs)
  (media : option Stream) : Refs * list Event :=
  let request := GetUserMedia (isFrontCamera snap) in
  match media with
  | Some stream =>
      (set_stream r (Some stream),
       stopCurrentStream r ++ request ::
         (if videoRef r then SetSrcObject stream :: startAnalysis snap
          else []))
  | None =>
      (r, stopCurrentStream r ++
            [request; ConsoleError MsgCameraError;
             SetExtractedText camera_error_text])
  end.

Definition toggleCamera (snap : Snapshot) : list Event :=
  [SetIsFrontCamera (negb (isFrontCamera snap));
   SetHasValidResult false;
   SetExtractedText [];
   SetIsAnalyzing false;
   SetTimeout 100 (CbInitializeCamera snap)].

Definition api_error := ConsoleError MsgApiError.

Definition sendToApi (text : jsstring) (e : EffectEnv) : list Event :=
  SetIsLoading true ::
  match getRoomId text with
  | None => []
  | Some id =>
      if id =? 0 then []                       (* [!id] *)
      else
        let isTP := endsWith text (lit "-TP") in
        let payload :=
          [mkRoom id text (if isTP then lit "#FFFFBF" else lit "#FFD7B0")] in
        HttpPost (today e) payload ::
        match http e with
        | HttpThrows => [api_error]
        | HttpResponse _ data =>
            if negb (truthy data) then [api_error]
            else
              SetDay data :: ConsoleLog (MsgApiResponse data) ::
              (if truthy data && isArray data then
                 [SetCalendarEvents data; SetIsCalendarOpen true;
                  SetIsLoading false]
               else [])
        end
  end.

(** The body of [useEffect(.., [extractedText])], run after a render in
    which [extractedText] differs from the render before. *)
Definition extractedText_effect (snap : Snapshot) (e : EffectEnv)
  : list Event :=
  if truthy_str (extractedText snap) then sendToApi (extractedText snap) e
  else [].

(** [dataurl] is what [canvas.toDataURL] returns. *)
Definition captureFrame (snap : Snapshot) (r : Refs) (dataurl : jsstring)
  : option jsstring * list Event :=
  if negb (videoRef r) || negb (canvasRef r)
     || match workerRef r with None => true | Some _ => false end
     || hasValidResult snap
  then (None, [])
  else (Some dataurl, [DrawImage; ToDataURL]).

Definition reinitializeWorker (r : Refs) (e : WorkerSetup)
  : Refs * list Event :=
  let failed := [ConsoleError MsgReinitError] in
  let stop :=
    match workerRef r with Some w => [Terminate w] | None => [] end in
  if match workerRef r with Some _ => negb (terminate_ok e) | None => false end
  then (r, ConsoleLog MsgReinit :: stop ++ failed)
  else
    let '(r1, evs, ok) := create_and_configure r e in
    if ok then
      (set_analysisCount (set_lastSuccess r1 (clock_after e)) 0,
       ConsoleLog MsgReinit :: stop ++ evs)
    else (r1, ConsoleLog MsgReinit :: stop ++ evs ++ failed).

(** The [for .. of] over the lines: the lines the loop has looked at, in
    order, and the token it stopped on, if any. *)
Fixpoint scan_lines (lines : list jsstring)
  : list jsstring * option jsstring :=
  match lines with
  | [] => ([], None)
  | line :: rest =>
      let processed := preprocessText line in
      if isValidFormat processed then ([line], Some processed)
      else let '(seen, found) := scan_lines rest in (line :: seen, found)
  end.

Definition analyzeFrame (snap : Snapshot) (r : Refs) (frameData : jsstring)
  (e : AnalyzeEnv) : Refs * list Event :=
  match workerRef r with
  | None => (r, [])
  | Some w =>
      if negb (truthy_str frameData) || hasValidResult snap then (r, [])
      else
        let r1 := set_analysisCount r (js_succ (analysisCountRef r)) in
        let currentTime := now e in
        let timeSinceLastSuccess := currentTime - lastSuccessRef r1 in
        if (timeSinceLastSuccess >? 10000) && (analysisCountRef r1 >? 20)
        then reinitializeWorker r1 (reinit e)
        else
          match ocr e with
          | OcrThrows =>
              (r1, [Recognize w frameData; ConsoleError MsgAnalysisError;
                    SetIsAnalyzing false])
          | OcrText t =>
              let text := match t with
                          | Some s => if truthy_str s then s else []
                          | None => []
                          end in
              match snd (scan_lines (split 10%N text)) with
              | Some processed =>
                  (set_lastSuccess r1 currentTime,
                   [Recognize w frameData;
                    ConsoleLog (MsgValidFormat processed);
                    SetExtractedText processed;
                    SetHasValidResult true;
                    SetIsAnalyzing false])
              | None => (r1, [Recognize w frameData])
              end
          end
  end.

(** The callback of [setInterval] that [startAnalysis] builds. *)
Definition analyzeLoop (snap : Snapshot) (r : Refs) (e : TickEnv)
  : Refs * list Event :=
  if hasValidResult snap then (r, [ClearInterval])
  else
    let '(r1, evs1) :=
      match workerRef r with
      | None => reinitializeWorker r (setup_missing e)
      | Some _ => (r, [])
      end in
    let '(frameData, evs2) := captureFrame snap r1 (dataURL e) in
    match frameData with
    | Some f =>
        if truthy_str f then
          let '(r2, evs3) := analyzeFrame snap r1 f (analyze e) in
          (r2, evs1 ++ evs2 ++ evs3)
        else (r1, evs1 ++ evs2)
    | None => (r1, evs1 ++ evs2)
    end.

Definition resetAnalysis (snap : Snapshot) (r : Refs) (e : WorkerSetup)
  : Refs * list Event :=
  let '(r1, evs) := reinitializeWorker r e in
  (r1, [SetHasValidResult false; SetExtractedText []; SetIsAnalyzing true]
       ++ evs ++ [SetTimeout 100 (CbStartAnalysis snap)]).

(** The [onClose] handed to [CalendarModal]. *)
Definition onClose (snap : Snapshot) (r : Refs) (e : WorkerSetup)
  : Refs * list Event :=
  let '(r1, evs) := reinitializeWorker r e in
  (r1, [SetIsCalendarOpen false; SetDay JNull; SetHasValidResult false;
        SetExtractedText []; SetIsAnalyzing true]
       ++ evs ++ startAnalysis snap).

(* ===================================================================== *)
(** ** The mounted component *)
(* ===================================================================== *)

(** What a state setter does to the values the next render sees. *)
Definition set_state (s : Snapshot) (ev : Event) : Snapshot :=
  match ev with
  | SetExtractedText t =>
      mkSnapshot t (isAnalyzing s) (hasValidResult s) (isFrontCamera s)
                 (day s) (isCalendarOpen s) (calendarEvents s) (isLoading s)
  | SetIsAnalyzing b =>
      mkSnapshot (extractedText s) b (hasValidResult s) (isFrontCamera s)
                 (day s) (isCalendarOpen s) (calendarEvents s) (isLoading s)
  | SetHasValidResult b =>
      mkSnapshot (extractedText s) (isAnalyzing s) b (isFrontCamera s)
                 (day s) (isCalendarOpen s) (calendarEvents s) (isLoading s)
  | SetIsFrontCamera b =>
      mkSnapshot (extractedText s) (isAnalyzing s) (hasValidResult s) b
                 (day s) (isCalendarOpen s) (calendarEvents s) (isLoading s)
  | SetDay d =>
      mkSnapshot (extractedText s) (isAnalyzing s) (hasValidResult s)
                 (isFrontCamera s) d (isCalendarOpen s) (calendarEvents s)
                 (isLoading s)
  | SetIsCalendarOpen b =>
      mkSnapshot (extractedText s) (isAnalyzing s) (hasValidResult s)
                 (isFrontCamera s) (day s) b (calendarEvents s) (isLoading s)
  | SetCalendarEvents d =>
      mkSnapshot (extractedText s) (isAnalyzing s) (hasValidResult s)
                 (isFrontCamera s) (day s) (isCalendarOpen s) d (isLoading s)
  | SetIsLoading b =>
      mkSnapshot (extractedText s) (isAnalyzing s) (hasValidResult s)
                 (isFrontCamera s) (day s) (isCalendarOpen s)
                 (calendarEvents s) b
  | _ => s
  end.

Definition reduce (s : Snapshot) (evs : list Event) : Snapshot :=
  fold_left set_state evs s.

(** The arguments of the [useState] calls. *)
Definition initial_snapshot : Snapshot :=
  mkSnapshot [] false false false JNull false (JArr []) false.

(** [mounted] is [Date.now()] when the component is first rendered. *)
Definition initial_refs (mounted : Z) : Refs :=
  mkRefs true true None None mounted 0.

Record Component : Type := mkComponent {
  state : Snapshot;               (* what the latest render sees *)
  refs : Refs;
  intervals : list Callback;      (* live [setInterval] callbacks *)
  timeouts : list Callback        (* pending [setTimeout] callbacks *)
}.

Fixpoint new_intervals (evs : list Event) : list Callback :=
  match evs with
  | [] => []
  | SetInterval _ cb :: evs' => cb :: new_intervals evs'
  | _ :: evs' => new_intervals evs'
  end.

Fixpoint new_timeouts (evs : list Event) : list Callback :=
  match evs with
  | [] => []
  | SetTimeout _ cb :: evs' => cb :: new_timeouts evs'
  | _ :: evs' => new_timeouts evs'
  end.

Fixpoint remove_nth {A : Type} (i : nat) (l : list A) : list A :=
  match l, i with
  | [], _ => []
  | _ :: l', O => l'
  | a :: l', S i' => a :: remove_nth i' l'
  end.

Definition is_clear (ev : Event) : bool :=
  match ev with ClearInterval => true | _ => false end.

(** A handler has run with the events [evs]: the state setters give the
    next render, and the [extractedText] effect runs when that value has
    changed. *)
Definition commit (c : Component) (r : Refs) (evs : list Event)
  (fx : EffectEnv) : Component * list Event :=
  let s1 := reduce (state c) evs in
  let fx_evs :=
    if str_eqb (extractedText (state c)) (extractedText s1) then []
    else extractedText_effect s1 fx in
  (mkComponent (reduce s1 fx_evs) r
               (intervals c ++ new_intervals evs)
               (timeouts c ++ new_timeouts evs),
   evs ++ fx_evs).

(** The first render and its [useEffect(.., [])].  The two initialisers
    run concurrently and touch different references; the engine is set up
    first here. *)
Definition mount (mounted : Z) (tess : WorkerSetup) (media : option Stream)
  (fx : EffectEnv) : Component * list Event :=
  let r0 := initial_refs mounted in
  let '(r1, evs1) := initializeTesseract r0 tess in
  let '(r2, evs2) := initializeCamera initial_snapshot r1 media in
  commit (mkComponent initial_snapshot r0 [] []) r2 (evs1 ++ evs2) fx.

(** The [i]-th live interval fires. *)
Definition tick (c : Component) (i : nat) (e : TickEnv) (fx : EffectEnv)
  : Component * list Event :=
  match nth_error (intervals c) i with
  | Some (CbAnalyzeLoop snap) =>
      let '(r, evs) := analyzeLoop snap (refs c) e in
      let '(c1, all) := commit c r evs fx in
      (if existsb is_clear evs
       then mkComponent (state c1) (refs c1)
                        (remove_nth i (intervals c1)) (timeouts c1)
       else c1, all)
  | _ => (c, [])
  end.

(** The [j]-th pending timeout fires. *)
Definition fire_timeout (c : Component) (j : nat) (media : option Stream)
  (fx : EffectEnv) : Component * list Event :=
  match nth_error (timeouts c) j with
  | Some cb =>
      let c0 := mkComponent (state c) (refs c) (intervals c)
                            (remove_nth j (timeouts c)) in
      match cb with
      | CbInitializeCamera snap =>
          let '(r, evs) := initializeCamera snap (refs c) media in
          commit c0 r evs fx
      | CbStartAnalysis snap => commit c0 (refs c) (startAnalysis snap) fx
      | CbAnalyzeLoop _ => (c0, [])
      end
  | None => (c, [])
  end.

(** The three buttons; each runs the handler of the latest render. *)
Definition click_toggleCamera (c : Component) (fx : EffectEnv)
  : Component * list Event :=
  commit c (refs c) (toggleCamera (state c)) fx.

Definition click_resetAnalysis (c : Component) (e : WorkerSetup)
  (fx : EffectEnv) : Component * list Event :=
  let '(r, evs) := resetAnalysis (state c) (refs c) e in commit c r evs fx.

Definition close_modal (c : Component) (e : WorkerSetup) (fx : EffectEnv)
  : Component * list Event :=
  let '(r, evs) := onClose (state c) (refs c) e in commit c r evs fx.

(** The components that the mount, the timers and the three buttons can
    produce. *)
Inductive reachable : Component -> Prop :=
| reach_mount mounted tess media fx :
    reachable (fst (mount mounted tess media fx))
| reach_tick c i e fx :
    reachable c -> reachable (fst (tick c i e fx))
| reach_timeout c j media fx :
    reachable c -> reachable (fst (fire_timeout c j media fx))
| reach_toggle c fx :
    reachable c -> reachable (fst (click_toggleCamera c fx))
| reach_reset c e fx :
    reachable c -> reachable (fst (click_resetAnalysis c e fx))
| reach_close c e fx :
    reachable c -> reachable (fst (close_modal c e fx)).

(** A loop callback built in a render without a valid result. *)
Definition blind (cb : Callback) : Prop :=
  match cb with
  | CbAnalyzeLoop snap => hasValidResult snap = false
  | _ => True
  end.

(** *** AnalysisState, as the specification names it *)

Record AnalysisState : Type := mkAnalysisState {
  as_isAnalyzing : bool;
  as_hasValidResult : bool;
  as_extractedText : jsstring;
  as_attemptCount : Z;
  as_lastSuccessTimestamp : Z
}.

Definition analysis_state (c : Component) : AnalysisState :=
  mkAnalysisState (isAnalyzing (state c)) (hasValidResult (state c))
                  (extractedText (state c)) (analysisCountRef (refs c))
                  (lastSuccessRef (refs c)).

(** The values at the first render, [t] being the clock then. *)
Definition initial_analysis_state (t : Z) : AnalysisState :=
  mkAnalysisState false false [] 0 t.

(** *** A running component, for the worked examples *)

(** A set-up in which every call resolves, giving worker [w] at time
    [t]. *)
Definition working_setup (w : Worker) (t : Z) : WorkerSetup :=
  mkWorkerSetup true (Some w) true true true t.

(** A set-up in which [createWorker] rejects. *)
Definition failing_setup (t : Z) : WorkerSetup :=
  mkWorkerSetup true None true true true t.

Definition demo_fx : EffectEnv :=
  mkEffectEnv (lit "2025-01-15") (HttpResponse 200 (JArr [])).

(** Token [M03-TP] on screen for a while, five attempts counted, the
    last success at time 1000. *)
Definition demo_component : Component :=
  mkComponent
    (mkSnapshot (lit "M03-TP") false true false (JArr []) true (JArr [])
                false)
    (mkRefs true true (Some 1%nat) (Some [7%nat]) 1000 5)
    [CbAnalyzeLoop initial_snapshot] [].

(** A worker and a stream in place, nothing counted, clock 0. *)
Definition demo_refs : Refs :=
  mkRefs true true (Some 1%nat) (Some [7%nat]) 0 0.

(** [n] frames, 400 ms apart, on which the engine reads [noise]. *)
Definition noise_inputs (n : nat) : list (jsstring * AnalyzeEnv) :=
  map (fun k =>
         (lit "data:image/jpeg",
          mkAnalyzeEnv (400 * Z.of_nat k) (working_setup 2%nat 0)
                       (OcrText (Some (lit "noise")))))
      (seq 1 n).

(** A tick at time [t] on which the engine reads [text]. *)
Definition reading (t : Z) (text : jsstring) : TickEnv :=
  mkTickEnv (working_setup 3%nat t) (lit "data:image/jpeg")
            (mkAnalyzeEnv t (working_setup 2%nat t) (OcrText (Some text))).

(** The text of the end-to-end example: [noise], [M03-TP] and
    [more noise] on three lines. *)
Definition three_lines : jsstring :=
  lit "noise" ++ 10%N :: lit "M03-TP" ++ 10%N :: lit "more noise".

(** A text with two valid lines after a line of noise: [n o], [ M5-TP ]
    and [M01-TD]. *)
Definition two_tokens : jsstring :=
  lit "n o" ++ 10%N :: lit " M5-TP " ++ 10%N :: lit "M01-TD".

(** The request fails or its answer has no usable body. *)
Definition no_body (o : HttpOutcome) : bool :=
  match o with
  | HttpThrows => true
  | HttpResponse _ data => negb (truthy data)
  end.

(** *** Reading a trace *)

Definition is_recognize (ev : Event) : bool :=
  match ev with Recognize _ _ => true | _ => false end.

Definition is_create (ev : Event) : bool :=
  match ev with CreateWorker => true | _ => false end.

(** The log line that opens every run of [reinitializeWorker]. *)
Definition is_reinit_start (ev : Event) : bool :=
  match ev with ConsoleLog MsgReinit => true | _ => false end.

Definition is_post (ev : Event) : bool :=
  match ev with HttpPost _ _ => true | _ => false end.

Definition is_capture (ev : Event) : bool :=
  match ev with DrawImage | ToDataURL => true | _ => false end.

Definition is_success (ev : Event) : bool :=
  match ev with SetHasValidResult true => true | _ => false end.

Definition is_request (ev : Event) : bool :=
  match ev with GetUserMedia _ => true | _ => false end.

Definition is_stop (ev : Event) : bool :=
  match ev with TrackStop _ => true | _ => false end.

Definition is_timer (ev : Event) : bool :=
  match ev with SetInterval _ _ | ClearInterval => true | _ => false end.

(** [streamRef.current.getTracks()], nothing when no stream is held. *)
Definition current_tracks (r : Refs) : list Track :=
  match streamRef r with Some tracks => tracks | None => [] end.

(** An attempt that ran the OCR engine and reported no token. *)
Definition failed_attempt (evs : list Event) : bool :=
  existsb is_recognize evs && negb (existsb is_success evs).

(** Successive calls of [analyzeFrame], one per frame, with the trace of
    each. *)
Fixpoint attempts (snap : Snapshot) (r : Refs)
  (inputs : list (jsstring * AnalyzeEnv)) : Refs * list (list Event) :=
  match inputs with
  | [] => (r, [])
  | (frame, e) :: rest =>
      let '(r1, evs) := analyzeFrame snap r frame e in
      let '(r2, traces) := attempts snap r1 rest in
      (r2, evs :: traces)
  end.

(** A set-up in which every call to the OCR library resolves. *)
Definition setup_succeeds (e : WorkerSetup) : bool :=
  terminate_ok e
  && match created e with Some _ => true | None => false end
  && loadLanguage_ok e && initialize_ok e && setParameters_ok e.

(* ===================================================================== *)
(** ** The view, the unmount and the steps of the component *)
(* ===================================================================== *)

Definition label_back_camera : jsstring :=      (* Camera arriere *)
  lit "Cam" ++ [233%N] ++ lit "ra arri" ++ [232%N] ++ lit "re".

Definition label_front_camera : jsstring :=     (* Camera avant *)
  lit "Cam" ++ [233%N] ++ lit "ra avant".

Definition heading_detected : jsstring :=       (* Format detecte *)
  lit "Format d" ++ [233%N] ++ lit "tect" ++ [233%N].

Definition label_restart : jsstring := lit "Recommencer".

Definition text_analyzing : jsstring := lit "Analyse en cours...".

Definition text_preparing : jsstring :=
  lit "Pr" ++ [233%N] ++ lit "paration de l'analyse...".

(** The lower zone of the screen: the detected token with the restart
    button, or the status line with its spinner. *)
Inductive Panel : Type :=
| ResultPanel (heading shown button : jsstring)
| StatusPanel (spinner : bool) (message : jsstring).

(** What the component returns: the label of the camera button, the
    lower zone and the props handed to [CalendarModal]. *)
Record View : Type := mkView {
  toggle_label : jsstring;
  panel : Panel;
  modal_isOpen : bool;
  modal_events : JsValue;
  modal_extractedText : jsstring
}.

Definition render (snap : Snapshot) : View :=
  mkView
    (if isFrontCamera snap then label_back_camera else label_front_camera)
    (if hasValidResult snap
     then ResultPanel heading_detected (extractedText snap) label_restart
     else StatusPanel (isAnalyzing snap)
            (if isAnalyzing snap then text_analyzing else text_preparing))
    (isCalendarOpen snap) (calendarEvents snap) (extractedText snap).


(** One timer or one button. *)
Inductive step (c : Component) : Component -> Prop :=
| step_tick i e fx : step c (fst (tick c i e fx))
| step_timeout j media fx : step c (fst (fire_timeout c j media fx))
| step_toggle fx : step c (fst (click_toggleCamera c fx))
| step_reset e fx : step c (fst (click_resetAnalysis c e fx))
| step_close e fx : step c (fst (close_modal c e fx)).


(** [acquired c s]: in the history that leads to [c], [s] is the stream
    that the latest [getUserMedia] to resolve has returned ([None] when
    none has resolved yet). *)
Inductive acquired : Component -> option Stream -> Prop :=
| acq_mount mounted tess media fx :
    acquired (fst (mount mounted tess media fx)) media
| acq_tick c s i e fx :
    acquired c s -> acquired (fst (tick c i e fx)) s
| acq_camera c s j snap stream fx :
    acquired c s ->
    nth_error (timeouts c) j = Some (CbInitializeCamera snap) ->
    acquired (fst (fire_timeout c j (Some stream) fx)) (Some stream)
| acq_camera_refused c s j fx :
    acquired c s -> acquired (fst (fire_timeout c j None fx)) s
| acq_other_timeout c s j media fx :
    acquired c s ->
    (forall snap, nth_error (timeouts c) j <> Some (CbInitializeCamera snap)) ->
    acquired (fst (fire_timeout c j media fx)) s
| acq_toggle c s fx :
    acquired c s -> acquired (fst (click_toggleCamera c fx)) s
| acq_reset c s e fx :
    acquired c s -> acquired (fst (click_resetAnalysis c e fx)) s
| acq_close c s e fx :
    acquired c s -> acquired (fst (close_modal c e fx)) s.

(** What a tick of the loop may do: talk to the console, the canvas and
    the OCR engine, report a valid token, and clear its own interval. *)
Definition tick_event_ok (ev : Event) : bool :=
  match ev with
  | SetExtractedText t => isValidFormat t
  | SetHasValidResult b => b
  | SetIsAnalyzing b => negb b
  | DrawImage | ToDataURL | Terminate _ | CreateWorker | LoadLanguage _
  | Initialize _ | SetParameters _ | Recognize _ _ | ClearInterval
  | ConsoleLog _ | ConsoleError _ => true
  | _ => false
  end.

(** The attempt counter is a count that a JavaScript number holds
    exactly. *)
Definition count_in_range (r : Refs) : Prop :=
  0 <= analysisCountRef r <= 9007199254740992.

(** From [r] to [r']: the two elements stay, a worker that is there is
    not lost, and the counter stays in range. *)
Definition refs_kept (r r' : Refs) : Prop :=
  videoRef r' = videoRef r
  /\ canvasRef r' = canvasRef r
  /\ (workerRef r <> None -> workerRef r' <> None)
  /\ (count_in_range r -> count_in_range r').

(** What [extractedText] may hold. *)
Definition text_ok (t : jsstring) : Prop :=
  t = [] \/ t = camera_error_text \/ isValidFormat t = true.

(* ===================================================================== *)
(** ** The component without the submission

    [src/src/components/CameraCapture.js], the file that [App.js]
    imports.  It has the same camera functions, [captureFrame],
    [preprocessText], [isValidFormat], [startAnalysis] guard and
    [toggleCamera]; what differs is modelled here: [reinitializeWorker]
    has no [try] of its own and goes through [initializeTesseract], the
    loop does not look for a missing worker, and [analyzeFrame] logs the
    text it reads and every line it has preprocessed. *)
(* ===================================================================== *)

Module Lite.

Inductive LEvent : Type :=
| Ev (ev : Event)
| LogDetected (text : jsstring)
| LogProcessed (processed : jsstring).

(** The trace without the two extra logs. *)
Fixpoint erase (evs : list LEvent) : list Event :=
  match evs with
  | [] => []
  | Ev ev :: evs' => ev :: erase evs'
  | _ :: evs' => erase evs'
  end.

Fixpoint processed_logs (evs : list LEvent) : list jsstring :=
  match evs with
  | [] => []
  | LogProcessed p :: evs' => p :: processed_logs evs'
  | _ :: evs' => processed_logs evs'
  end.

(** The boolean tells that [terminate] rejected: nothing catches it
    here, the caller sees the exception. *)
Definition reinitializeWorker (r : Refs) (e : WorkerSetup)
  : Refs * list Event * bool :=
  let stop :=
    match workerRef r with Some w => [Terminate w] | None => [] end in
  if match workerRef r with Some _ => negb (terminate_ok e) | None => false end
  then (r, ConsoleLog MsgReinit :: stop, true)
  else
    let '(r1, evs) := initializeTesseract r e in
    (set_analysisCount (set_lastSuccess r1 (clock_after e)) 0,
     ConsoleLog MsgReinit :: stop ++ evs, false).

Fixpoint scan_lines (lines : list jsstring)
  : list LEvent * option jsstring :=
  match lines with
  | [] => ([], None)
  | line :: rest =>
      let processed := preprocessText line in
      if isValidFormat processed then
        ([LogProcessed processed; Ev (ConsoleLog (MsgValidFormat processed))],
         Some processed)
      else
        let '(evs, found) := scan_lines rest in
        (LogProcessed processed :: evs, found)
  end.

Definition analyzeFrame (snap : Snapshot) (r : Refs) (frameData : jsstring)
  (e : AnalyzeEnv) : Refs * list LEvent :=
  match workerRef r with
  | None => (r, [])
  | Some w =>
      if negb (truthy_str frameData) || hasValidResult snap then (r, [])
      else
        let r1 := set_analysisCount r (js_succ (analysisCountRef r)) in
        let currentTime := now e in
        let timeSinceLastSuccess := currentTime - lastSuccessRef r1 in
        let caught :=
          [Ev (ConsoleError MsgAnalysisError); Ev (SetIsAnalyzing false)] in
        if (timeSinceLastSuccess >? 10000) && (analysisCountRef r1 >? 20)
        then
          let '(r2, evs, threw) := reinitializeWorker r1 (reinit e) in
          (r2, map Ev evs ++ (if threw then caught else []))
        else
          match ocr e with
          | OcrThrows => (r1, Ev (Recognize w frameData) :: caught)
          | OcrText t =>
              let text := match t with
                          | Some s => if truthy_str s then s else []
                          | None => []
                          end in
              let '(logs, found) := scan_lines (split 10%N text) in
              match found with
              | Some processed =>
                  (set_lastSuccess r1 currentTime,
                   Ev (Recognize w frameData) :: LogDetected text :: logs
                   ++ [Ev (SetExtractedText processed);
                       Ev (SetHasValidResult true);
                       Ev (SetIsAnalyzing false)])
              | None =>
                  (r1, Ev (Recognize w frameData) :: LogDetected text :: logs)
              end
          end
  end.

Definition analyzeLoop (snap : Snapshot) (r : Refs) (e : TickEnv)
  : Refs * list LEvent :=
  if hasValidResult snap then (r, [Ev ClearInterval])
  else
    let '(frameData, evs2) := captureFrame snap r (dataURL e) in
    match frameData with
    | Some f =>
        if truthy_str f then
          let '(r2, evs3) := analyzeFrame snap r f (analyze e) in
          (r2, map Ev evs2 ++ evs3)
        else (r, map Ev evs2)
    | None => (r, map Ev evs2)
    end.

(** When [terminate] rejects, the promise of [resetAnalysis] rejects and
    the restart is not scheduled. *)
Definition resetAnalysis (snap : Snapshot) (r : Refs) (e : WorkerSetup)
  : Refs * list Event :=
  let '(r1, evs, threw) := reinitializeWorker r e in
  (r1, [SetHasValidResult false; SetExtractedText []; SetIsAnalyzing true]
       ++ evs
       ++ (if threw then [] else [SetTimeout 100 (CbStartAnalysis snap)])).

End Lite.

(* ===================================================================== *)
(** ** Properties of the string helpers *)
(* ===================================================================== *)

Lemma str_eqb_eq (a b : jsstring) : str_eqb a b = true <-> a = b.
Proof.
  revert b; induction a as [|x a IH]; intros [|y b]; simpl;
    try (split; [discriminate | congruence]); [tauto|].
  rewrite andb_true_iff, N.eqb_eq, IH. split.
  - intros [-> ->]; reflexivity.
  - intros E; injection E; auto.
Qed.

Lemma str_eqb_refl (a : jsstring) : str_eqb a a = true.
Proof. apply str_eqb_eq; reflexivity. Qed.

Lemma replace_runs_empty cls b s :
  replace_runs_g cls [] b s = filter (fun c => negb (cls c)) s.
Proof.
  revert b; induction s as [|c s IH]; intros b; simpl; [reflexivity|].
  destruct (cls c); simpl.
  - destruct b; simpl; apply IH.
  - f_equal; apply IH.
Qed.

Lemma replace_class_one cls c0 s :
  replace_class_g cls [c0] s = map (fun c => if cls c then c0 else c) s.
Proof.
  induction s as [|c s IH]; simpl; [reflexivity|].
  destruct (cls c); simpl; f_equal; exact IH.
Qed.

Lemma trimStart_no_space s :
  forallb (fun c => negb (is_space c)) s = true -> trimStart s = s.
Proof.
  destruct s as [|c s]; simpl; [reflexivity|].
  intros H; apply andb_prop in H; destruct H as [H _].
  destruct (is_space c); [discriminate | reflexivity].
Qed.

Lemma forallb_filter_id (A : Type) (p : A -> bool) l :
  forallb p (filter p l) = true.
Proof.
  induction l as [|a l IH]; simpl; [reflexivity|].
  destruct (p a) eqn:E; simpl; [rewrite E|]; exact IH.
Qed.

Lemma forallb_rev (A : Type) (p : A -> bool) l :
  forallb p (rev l) = forallb p l.
Proof.
  induction l as [|a l IH]; simpl; [reflexivity|].
  rewrite forallb_app, IH; simpl. rewrite andb_true_r; apply andb_comm.
Qed.

(** [trim] has nothing left to strip once the runs of whitespace are
    gone. *)
Lemma trim_no_space s :
  forallb (fun c => negb (is_space c)) s = true -> trim s = s.
Proof.
  intros H; unfold trim, trimEnd. rewrite (trimStart_no_space _ H).
  rewrite trimStart_no_space by (rewrite forallb_rev; exact H).
  apply rev_involutive.
Qed.

Lemma preprocessText_normalize s : preprocessText s = spec_normalize s.
Proof.
  unfold preprocessText, spec_normalize.
  rewrite replace_runs_empty. change (lit "0") with [chr "0"].
  rewrite replace_class_one. apply trim_no_space, forallb_filter_id.
Qed.

(** A pattern that starts with [^] can only match from index 0. *)
Lemma test_anchored r s :
  test (RSeq RBol r) s = rmatch r 0 s (fun _ _ => true).
Proof.
  unfold test. cbn [seq existsb]. cbn [rmatch Nat.eqb andb skipn].
  assert (H : forall n m,
             existsb (fun i => rmatch (RSeq RBol r) i (skipn i s)
                                 (fun _ _ => true)) (seq (S n) m) = false).
  { intros n m; revert n; induction m as [|m IH]; intros n; simpl;
      [reflexivity | apply IH]. }
  rewrite H; apply orb_false_r.
Qed.

Section Grammar.

#[local] Opaque N.eqb N.leb.

Ltac bool_hyps :=
  repeat match goal with
    | H : _ && _ = true |- _ => apply andb_prop in H; destruct H
    | H : _ || _ = true |- _ => apply orb_prop in H; destruct H
    | H : false = true |- _ => discriminate H
    | H : N.eqb _ _ = true |- _ => apply N.eqb_eq in H
    end.

Ltac use_hyps :=
  repeat match goal with H : _ = true |- _ => rewrite H end.

Lemma isValidFormat_grammar s : isValidFormat s = true <-> token_grammar s.
Proof.
  unfold isValidFormat, room_regex. rewrite test_anchored. split.
  - destruct s as [|c0 [|c1 [|c2 [|c3 [|c4 [|c5 [|c6 s]]]]]]]; cbn;
      intros H; try discriminate; bool_hyps; subst.
    all: first [ exists [c1; c2] | exists [c1] ]; eexists; cbn;
      unfold is_digit; cbn; use_hyps; repeat split; auto.
  - intros (ds & x & -> & Hlen & Hd & Hx).
    destruct ds as [|d1 [|d2 [|d3 ds]]]; cbn in Hlen; try lia.
    all: cbn in Hd; unfold is_digit in Hd; cbn in Hd; bool_hyps.
    all: cbn; use_hyps; destruct Hx; subst x; reflexivity.
Qed.

End Grammar.

(** C1: after [preprocessText], [isValidFormat] accepts exactly the
    strings that match [^M[0-9]{1,2}-T[DP]$] once every [o]/[O] is
    replaced by [0] and all whitespace is removed; the four examples of
    the specification evaluate as it says. *)
Theorem C1_valid_format_after_preprocess :
  (forall s, isValidFormat (preprocessText s) = true
             <-> token_grammar (spec_normalize s))
  /\ isValidFormat (preprocessText (lit "m01-TP")) = false
  /\ preprocessText (lit "M0O-TP") = lit "M00-TP"
  /\ isValidFormat (preprocessText (lit "M0O-TP")) = true
  /\ isValidFormat (preprocessText (lit "M123-TD")) = false
  /\ isValidFormat (preprocessText (lit " M5-TP ")) = true.
Proof.
  split; [|repeat split; vm_compute; reflexivity].
  intros s. rewrite preprocessText_normalize. apply isValidFormat_grammar.
Qed.

#[local] Transparent N.eqb N.leb.

(* ===================================================================== *)
(** ** The room table and the submission *)
(* ===================================================================== *)

Lemma getRoomId_known t : getRoomId t <> None -> In t known_tokens.
Proof.
  unfold getRoomId, known_tokens; cbn [map].
  repeat match goal with
    | |- context [str_eqb t ?k] =>
        let E := fresh "E" in
        destruct (str_eqb t k) eqn:E;
        [apply str_eqb_eq in E; rewrite E; intros _; auto 15 with datatypes|]
    end.
  intros H; contradiction H; reflexivity.
Qed.

Lemma getRoomId_unknown t : ~ In t known_tokens -> getRoomId t = None.
Proof.
  intros H. destruct (getRoomId t) eqn:E; [|reflexivity].
  contradiction H. apply getRoomId_known. congruence.
Qed.

Lemma getRoomId_nonzero t id : getRoomId t = Some id -> id <> 0.
Proof.
  unfold getRoomId.
  repeat match goal with
    | |- context [str_eqb t ?k] => destruct (str_eqb t k)
    end; intros H; inversion H; lia.
Qed.

(** C4: [getRoomId] answers with the fixed identifier on eleven tokens,
    which are pairwise different, and with [null] on every other string;
    when it answers [null], [sendToApi] sets the loading flag and stops:
    its trace holds no HTTP POST. *)
Theorem C4_room_table_and_unmapped_tokens :
  map getRoomId known_tokens
    = map Some [12673; 12981; 19393; 12680; 43372; 12677; 12678; 12679;
                12674; 62575; 13927]
  /\ length known_tokens = 11%nat
  /\ NoDup known_tokens
  /\ (forall t, getRoomId t <> None <-> In t known_tokens)
  /\ (forall t e, getRoomId t = None ->
        sendToApi t e = [SetIsLoading true]
        /\ existsb is_post (sendToApi t e) = false).
Proof.
  split; [vm_compute; reflexivity|].
  split; [reflexivity|].
  split.
  { unfold known_tokens; cbn [map].
    repeat (constructor;
            [cbn [In]; intros H;
             repeat (destruct H as [H|H]; [discriminate H|]); exact H|]).
    constructor. }
  split.
  { intros t; split; [apply getRoomId_known|].
    intros H E. revert E.
    unfold known_tokens in H; cbn [map In] in H.
    repeat (destruct H as [H|H]; [subst t; vm_compute; discriminate|]).
    contradiction. }
  intros t e H. unfold sendToApi. rewrite H. split; reflexivity.
Qed.

(** C4 at the camera-failure text, which is no room token. *)
Lemma C4_witness :
  sendToApi camera_error_text (mkEffectEnv (lit "2025-01-15") HttpThrows)
  = [SetIsLoading true].
Proof.
  apply (proj2 (proj2 (proj2 (proj2 C4_room_table_and_unmapped_tokens)))).
  vm_compute; reflexivity.
Defined.

(** C5: for a token of the table, [sendToApi] posts one room whose [id]
    is [getRoomId] of the token, whose [title] is the token and whose
    [eventColor] is [#FFFFBF] when the token ends in [-TP] and [#FFD7B0]
    otherwise; [M03-TP] gives 19393 with [#FFFFBF], [M11-TD] gives 12674
    with [#FFD7B0]. *)
Theorem C5_submission_payload :
  (forall t id e, getRoomId t = Some id ->
     exists rest,
       sendToApi t e =
         SetIsLoading true ::
         HttpPost (today e)
           [mkRoom id t (if endsWith t (lit "-TP") then lit "#FFFFBF"
                         else lit "#FFD7B0")] :: rest
       /\ existsb is_post rest = false)
  /\ (forall e, exists rest,
        sendToApi (lit "M03-TP") e =
          SetIsLoading true ::
          HttpPost (today e) [mkRoom 19393 (lit "M03-TP") (lit "#FFFFBF")]
          :: rest)
  /\ (forall e, exists rest,
        sendToApi (lit "M11-TD") e =
          SetIsLoading true ::
          HttpPost (today e) [mkRoom 12674 (lit "M11-TD") (lit "#FFD7B0")]
          :: rest).
Proof.
  assert (G : forall t id e, getRoomId t = Some id ->
     exists rest,
       sendToApi t e =
         SetIsLoading true ::
         HttpPost (today e)
           [mkRoom id t (if endsWith t (lit "-TP") then lit "#FFFFBF"
                         else lit "#FFD7B0")] :: rest
       /\ existsb is_post rest = false).
  { intros t id e H. unfold sendToApi. rewrite H.
    pose proof (getRoomId_nonzero t id H) as Hz.
    apply Z.eqb_neq in Hz. rewrite Hz.
    eexists; split; [reflexivity|].
    destruct (http e) as [|st data]; [reflexivity|].
    destruct (truthy data); cbn [negb andb]; [|reflexivity].
    destruct (isArray data); reflexivity. }
  split; [exact G|].
  split; intros e.
  - destruct (G (lit "M03-TP") 19393 e eq_refl) as (rest & E & _).
    exists rest; exact E.
  - destruct (G (lit "M11-TD") 12674 e eq_refl) as (rest & E & _).
    exists rest; exact E.
Qed.

Lemma C5_witness :
  exists rest,
    sendToApi (lit "M13-TP") (mkEffectEnv (lit "2025-01-15") HttpThrows) =
      SetIsLoading true ::
      HttpPost (lit "2025-01-15")
               [mkRoom 62575 (lit "M13-TP") (lit "#FFFFBF")] :: rest
    /\ existsb is_post rest = false.
Proof.
  exact (proj1 C5_submission_payload (lit "M13-TP") 62575
           (mkEffectEnv (lit "2025-01-15") HttpThrows) eq_refl).
Defined.

(* ===================================================================== *)
(** ** Extraction of the token from the recognised text *)
(* ===================================================================== *)

Lemma split_acc_nonempty sep cur s : split_acc sep cur s <> [].
Proof.
  revert cur; induction s as [|c s IH]; intros cur; simpl;
    [discriminate|]. destruct (N.eqb c sep); [discriminate | apply IH].
Qed.

Lemma join_cons sep p rest :
  rest <> [] -> join sep (p :: rest) = p ++ sep :: join sep rest.
Proof. destruct rest; [congruence | reflexivity]. Qed.

Lemma join_split_acc sep cur s :
  join sep (split_acc sep cur s) = rev cur ++ s.
Proof.
  revert cur; induction s as [|c s IH]; intros cur.
  - simpl; symmetry; apply app_nil_r.
  - cbn [split_acc]. destruct (N.eqb c sep) eqn:E.
    + apply N.eqb_eq in E; subst c.
      rewrite join_cons by apply split_acc_nonempty.
      rewrite IH; reflexivity.
    + rewrite IH; simpl. rewrite <- app_assoc; reflexivity.
Qed.

Lemma join_split sep s : join sep (split sep s) = s.
Proof. apply join_split_acc. Qed.

Lemma split_acc_no_sep sep cur s :
  ~ In sep cur -> Forall (fun p => ~ In sep p) (split_acc sep cur s).
Proof.
  revert cur; induction s as [|c s IH]; intros cur H; simpl.
  - constructor; [|constructor]. rewrite <- in_rev; exact H.
  - destruct (N.eqb c sep) eqn:E.
    + constructor; [rewrite <- in_rev; exact H | apply IH; intros []].
    + apply IH. intros [F|F]; [|exact (H F)].
      apply N.eqb_neq in E; exact (E F).
Qed.

Lemma scan_lines_none lines :
  (forall l, In l lines -> isValidFormat (preprocessText l) = false) ->
  scan_lines lines = (lines, None).
Proof.
  induction lines as [|l lines IH]; intros H; simpl; [reflexivity|].
  rewrite (H l (or_introl eq_refl)).
  rewrite IH by (intros l' Hl; apply H; right; exact Hl). reflexivity.
Qed.

Lemma scan_lines_first before m after :
  (forall l, In l before -> isValidFormat (preprocessText l) = false) ->
  isValidFormat (preprocessText m) = true ->
  scan_lines (before ++ m :: after) = (before ++ [m], Some (preprocessText m)).
Proof.
  induction before as [|l before IH]; intros H Hm; simpl.
  - rewrite Hm; reflexivity.
  - rewrite (H l (or_introl eq_refl)).
    rewrite IH; [reflexivity | | exact Hm].
    intros l' Hl; apply H; right; exact Hl.
Qed.

Lemma text_or_empty (s : jsstring) :
  (if truthy_str s then s else []) = s.
Proof. destruct s; reflexivity. Qed.

(** What [analyzeFrame] does with the text the engine has read, outside
    the watchdog branch. *)
Lemma analyzeFrame_scans snap r w frame e text :
  workerRef r = Some w -> truthy_str frame = true ->
  hasValidResult snap = false ->
  (now e - lastSuccessRef r >? 10000)
    && (js_succ (analysisCountRef r) >? 20) = false ->
  ocr e = OcrText (Some text) ->
  analyzeFrame snap r frame e
  = match snd (scan_lines (split 10%N text)) with
    | Some processed =>
        (set_lastSuccess
           (set_analysisCount r (js_succ (analysisCountRef r))) (now e),
         [Recognize w frame; ConsoleLog (MsgValidFormat processed);
          SetExtractedText processed; SetHasValidResult true;
          SetIsAnalyzing false])
    | None =>
        (set_analysisCount r (js_succ (analysisCountRef r)),
         [Recognize w frame])
    end.
Proof.
  intros Hw Hf Hv Hwd Ho.
  unfold analyzeFrame. rewrite Hw, Hf, Hv. cbn [negb orb].
  cbn [set_analysisCount lastSuccessRef analysisCountRef].
  rewrite Hwd, Ho, text_or_empty. reflexivity.
Qed.

(** C6: the recognised text is cut at the newlines and the lines are
    preprocessed in order; the loop stops on the first line whose
    preprocessed form is valid, which becomes the extracted token, and
    looks at no line after it.  So [analyzeFrame], on any text whose
    lines are some invalid lines, then a valid line, then anything,
    writes the preprocessed form of that valid line to [extractedText],
    and on a text without a valid line writes nothing.  On the three
    lines [noise], [M03-TP], [more noise] the token written to
    [extractedText] is [M03-TP]. *)
Theorem C6_first_matching_line_wins :
  (forall s, join 10%N (split 10%N s) = s
             /\ Forall (fun line => ~ In 10%N line) (split 10%N s))
  /\ (forall before m after,
        (forall l, In l before -> isValidFormat (preprocessText l) = false) ->
        isValidFormat (preprocessText m) = true ->
        scan_lines (before ++ m :: after)
          = (before ++ [m], Some (preprocessText m)))
  /\ (forall lines,
        (forall l, In l lines -> isValidFormat (preprocessText l) = false) ->
        scan_lines lines = (lines, None))
  /\ scan_lines (split 10%N three_lines)
       = ([lit "noise"; lit "M03-TP"], Some (lit "M03-TP"))
  /\ (forall snap r w frame e,
        workerRef r = Some w -> truthy_str frame = true ->
        hasValidResult snap = false ->
        (now e - lastSuccessRef r >? 10000)
          && (js_succ (analysisCountRef r) >? 20) = false ->
        ocr e = OcrText (Some three_lines) ->
        snd (analyzeFrame snap r frame e)
          = [Recognize w frame; ConsoleLog (MsgValidFormat (lit "M03-TP"));
             SetExtractedText (lit "M03-TP"); SetHasValidResult true;
             SetIsAnalyzing false])
  /\ (forall snap r w frame e text before m after,
        workerRef r = Some w -> truthy_str frame = true ->
        hasValidResult snap = false ->
        (now e - lastSuccessRef r >? 10000)
          && (js_succ (analysisCountRef r) >? 20) = false ->
        ocr e = OcrText (Some text) ->
        split 10%N text = before ++ m :: after ->
        (forall l, In l before -> isValidFormat (preprocessText l) = false) ->
        isValidFormat (preprocessText m) = true ->
        snd (analyzeFrame snap r frame e)
          = [Recognize w frame;
             ConsoleLog (MsgValidFormat (preprocessText m));
             SetExtractedText (preprocessText m); SetHasValidResult true;
             SetIsAnalyzing false]
        /\ lastSuccessRef (fst (analyzeFrame snap r frame e)) = now e)
  /\ (forall snap r w frame e text,
        workerRef r = Some w -> truthy_str frame = true ->
        hasValidResult snap = false ->
        (now e - lastSuccessRef r >? 10000)
          && (js_succ (analysisCountRef r) >? 20) = false ->
        ocr e = OcrText (Some text) ->
        (forall l, In l (split 10%N text) ->
                   isValidFormat (preprocessText l) = false) ->
        snd (analyzeFrame snap r frame e) = [Recognize w frame]
        /\ lastSuccessRef (fst (analyzeFrame snap r frame e))
           = lastSuccessRef r).
Proof.
  split.
  { intros s; split; [apply join_split|].
    apply split_acc_no_sep; intros []. }
  split; [exact scan_lines_first|].
  split; [exact scan_lines_none|].
  split; [vm_compute; reflexivity|].
  split.
  { intros snap r w frame e Hw Hf Hv Hwd Ho.
    rewrite (analyzeFrame_scans snap r w frame e three_lines Hw Hf Hv Hwd Ho).
    replace (snd (scan_lines (split 10%N three_lines)))
      with (Some (lit "M03-TP")) by (vm_compute; reflexivity).
    reflexivity. }
  split.
  - intros snap r w frame e text before m after Hw Hf Hv Hwd Ho Hs Hb Hm.
    rewrite (analyzeFrame_scans snap r w frame e text Hw Hf Hv Hwd Ho).
    rewrite Hs, (scan_lines_first before m after Hb Hm).
    split; reflexivity.
  - intros snap r w frame e text Hw Hf Hv Hwd Ho Hall.
    rewrite (analyzeFrame_scans snap r w frame e text Hw Hf Hv Hwd Ho).
    rewrite (scan_lines_none _ Hall). split; reflexivity.
Qed.

(** End to end: on the mounted component, a tick on which the engine
    reads the three lines leaves [M03-TP] as the extracted token and posts
    room 19393 with the colour of a practical session. *)
Example end_to_end_three_lines :
  let c0 := fst (mount 0 (working_setup 1%nat 100) (Some [7%nat]) demo_fx) in
  let after := tick c0 0 (reading 600 three_lines) demo_fx in
  extractedText (state (fst after)) = lit "M03-TP"
  /\ In (HttpPost (lit "2025-01-15")
          [mkRoom 19393 (lit "M03-TP") (lit "#FFFFBF")]) (snd after).
Proof.
  cbv zeta. split; [vm_compute; reflexivity|].
  vm_compute. do 8 right. left. reflexivity.
Qed.

(** Of two valid lines the first one is taken. *)
Lemma C6_witness :
  scan_lines [lit "n o"; lit " M5-TP "; lit "M01-TD"]
  = ([lit "n o"; lit " M5-TP "], Some (lit "M5-TP"))
  /\ snd (analyzeFrame initial_snapshot demo_refs (lit "data:image/jpeg")
            (mkAnalyzeEnv 600 (working_setup 2%nat 0)
                          (OcrText (Some two_tokens))))
     = [Recognize 1%nat (lit "data:image/jpeg");
        ConsoleLog (MsgValidFormat (lit "M5-TP"));
        SetExtractedText (lit "M5-TP"); SetHasValidResult true;
        SetIsAnalyzing false].
Proof.
  split.
  - apply (proj1 (proj2 C6_first_matching_line_wins) [lit "n o"]
             (lit " M5-TP ") [lit "M01-TD"]).
    + intros l [<-|[]]; vm_compute; reflexivity.
    + vm_compute; reflexivity.
  - refine (proj1
              (proj1 (proj2 (proj2 (proj2 (proj2 (proj2
                 C6_first_matching_line_wins)))))
                 initial_snapshot demo_refs 1%nat (lit "data:image/jpeg")
                 (mkAnalyzeEnv 600 (working_setup 2%nat 0)
                               (OcrText (Some two_tokens)))
                 two_tokens [lit "n o"] (lit " M5-TP ") [lit "M01-TD"]
                 eq_refl eq_refl eq_refl eq_refl eq_refl eq_refl _ _)).
    + intros l [<-|[]]; vm_compute; reflexivity.
    + vm_compute; reflexivity.
Defined.

(* ===================================================================== *)
(** ** State setters, effects and the camera *)
(* ===================================================================== *)

Lemma reduce_app s evs1 evs2 :
  reduce s (evs1 ++ evs2) = reduce (reduce s evs1) evs2.
Proof. apply fold_left_app. Qed.

Lemma create_and_configure_quiet r e s :
  reduce s (snd (fst (create_and_configure r e))) = s.
Proof.
  unfold create_and_configure.
  destruct (created e); [|reflexivity].
  destruct (loadLanguage_ok e); [|reflexivity].
  destruct (initialize_ok e); reflexivity.
Qed.

(** [reinitializeWorker] calls no state setter. *)
Lemma reinitializeWorker_quiet r e s :
  reduce s (snd (reinitializeWorker r e)) = s.
Proof.
  unfold reinitializeWorker.
  pose proof (create_and_configure_quiet r e) as Q.
  destruct (create_and_configure r e) as [[r1 evs] ok]; cbn [fst snd] in Q.
  destruct (workerRef r) as [w|].
  - destruct (terminate_ok e); cbn [negb]; [|reflexivity].
    destruct ok; cbn [snd app]; unfold reduce in *; cbn [fold_left set_state];
      [apply Q|].
    rewrite fold_left_app. cbn [fold_left set_state]. apply Q.
  - destruct ok; cbn [snd app]; unfold reduce in *; cbn [fold_left set_state];
      [apply Q|].
    rewrite fold_left_app. cbn [fold_left set_state]. apply Q.
Qed.

Lemma reinitializeWorker_succeeds r e :
  setup_succeeds e = true ->
  exists w,
    created e = Some w
    /\ fst (reinitializeWorker r e)
       = mkRefs (videoRef r) (canvasRef r) (Some w) (streamRef r)
                (clock_after e) 0
    /\ length (filter is_create (snd (reinitializeWorker r e))) = 1%nat
    /\ existsb is_recognize (snd (reinitializeWorker r e)) = false.
Proof.
  unfold setup_succeeds, reinitializeWorker, create_and_configure.
  intros H. repeat (apply andb_prop in H; destruct H as [H ?]).
  destruct (created e) as [w|]; [|discriminate].
  exists w. split; [reflexivity|].
  repeat match goal with H : _ = true |- _ => rewrite H end.
  destruct (workerRef r); cbn; repeat split; reflexivity.
Qed.

Lemma sendToApi_no_camera t e :
  existsb is_stop (sendToApi t e) = false
  /\ existsb is_request (sendToApi t e) = false.
Proof.
  unfold sendToApi. destruct (getRoomId t) as [id|]; [|split; reflexivity].
  destruct (id =? 0); [split; reflexivity|].
  destruct (http e) as [|st data]; [split; reflexivity|].
  destruct (truthy data); cbn [negb andb]; [|split; reflexivity].
  destruct (isArray data); split; reflexivity.
Qed.

Lemma effect_no_camera s e :
  existsb is_stop (extractedText_effect s e) = false
  /\ existsb is_request (extractedText_effect s e) = false.
Proof.
  unfold extractedText_effect.
  destruct (truthy_str (extractedText s));
    [apply sendToApi_no_camera | split; reflexivity].
Qed.

Lemma existsb_map_stop tracks :
  existsb is_request (map TrackStop tracks) = false.
Proof. induction tracks; simpl; auto. Qed.

Lemma nth_error_snoc (A : Type) (l : list A) a :
  nth_error (l ++ [a]) (length l) = Some a.
Proof. induction l; simpl; auto. Qed.

(** Whatever else has run in between, [initializeCamera] stops the
    tracks held in [streamRef] before it asks for a stream. *)
Lemma initializeCamera_order snap r media :
  exists post,
    snd (initializeCamera snap r media)
    = map TrackStop (current_tracks r)
        ++ GetUserMedia (isFrontCamera snap) :: post
    /\ existsb is_stop post = false
    /\ existsb is_request post = false.
Proof.
  unfold initializeCamera, stopCurrentStream, current_tracks.
  replace (match streamRef r with
           | Some tracks => map TrackStop tracks | None => [] end)
    with (map TrackStop (match streamRef r with
                         | Some tracks => tracks | None => [] end))
    by (destruct (streamRef r); reflexivity).
  destruct media as [stream|]; cbn [snd]; eexists;
    (split; [reflexivity|]); [|split; reflexivity].
  unfold startAnalysis.
  destruct (videoRef r), (hasValidResult snap); split; reflexivity.
Qed.


(** *** Which stream [streamRef] holds *)







(** Every reachable component has such a history. *)
Lemma reachable_acquired c : reachable c -> exists s, acquired c s.
Proof.
  induction 1 as [mounted tess media fx | c i e fx _ [s IH]
                  | c j media fx _ [s IH] | c fx _ [s IH]
                  | c e fx _ [s IH] | c e fx _ [s IH]].
  - eexists. apply acq_mount.
  - exists s. apply acq_tick, IH.
  - destruct media as [stream|]; [|exists s; apply acq_camera_refused, IH].
    destruct (nth_error (timeouts c) j) as [[snap|snap|snap]|] eqn:Hj.
    + exists (Some stream). eapply acq_camera; eassumption.
    + exists s. apply acq_other_timeout; [exact IH|].
      intros snap'. rewrite Hj. discriminate.
    + exists s. apply acq_other_timeout; [exact IH|].
      intros snap'. rewrite Hj. discriminate.
    + exists s. apply acq_other_timeout; [exact IH|].
      intros snap'. rewrite Hj. discriminate.
  - exists s. apply acq_toggle, IH.
  - exists s. apply acq_reset, IH.
  - exists s. apply acq_close, IH.
Qed.



(* ===================================================================== *)
(** ** The reset triggers *)
(* ===================================================================== *)

Lemma effect_on_empty s e :
  extractedText s = [] -> extractedText_effect s e = [].
Proof. unfold extractedText_effect; intros ->; reflexivity. Qed.

(** The state after a handler that ends with [extractedText] empty: the
    effect has nothing to send. *)
Lemma commit_state_empty c r evs fx :
  extractedText (reduce (state c) evs) = [] ->
  state (fst (commit c r evs fx)) = reduce (state c) evs
  /\ refs (fst (commit c r evs fx)) = r.
Proof.
  intros H. unfold commit; cbn [fst state refs].
  rewrite (effect_on_empty _ fx H).
  destruct (str_eqb _ _); split; reflexivity.
Qed.

Lemma reduce_reset_prefix s evs tl :
  (forall s', reduce s' evs = s') ->
  reduce s ([SetHasValidResult false; SetExtractedText [];
             SetIsAnalyzing true] ++ evs ++ tl)
  = reduce (mkSnapshot [] true false (isFrontCamera s) (day s)
                       (isCalendarOpen s) (calendarEvents s) (isLoading s))
           tl.
Proof.
  intros Q. rewrite reduce_app, reduce_app, Q. reflexivity.
Qed.

(** With a worker in place, a re-creation in which some call rejects
    leaves the two counters alone and keeps a worker in [workerRef]. *)
Lemma reinitializeWorker_fails r w e :
  workerRef r = Some w ->
  setup_succeeds e = false ->
  analysisCountRef (fst (reinitializeWorker r e)) = analysisCountRef r
  /\ lastSuccessRef (fst (reinitializeWorker r e)) = lastSuccessRef r
  /\ workerRef (fst (reinitializeWorker r e)) <> None.
Proof.
  intros Hw. unfold setup_succeeds, reinitializeWorker, create_and_configure.
  rewrite Hw.
  destruct (terminate_ok e), (created e), (loadLanguage_ok e),
    (initialize_ok e), (setParameters_ok e); cbn; intros H;
    try discriminate H; rewrite ?Hw; repeat split; discriminate.
Qed.

Lemma reset_state c e fx :
  state (fst (click_resetAnalysis c e fx))
  = mkSnapshot [] true false (isFrontCamera (state c)) (day (state c))
      (isCalendarOpen (state c)) (calendarEvents (state c))
      (isLoading (state c))
  /\ refs (fst (click_resetAnalysis c e fx))
     = fst (reinitializeWorker (refs c) e).
Proof.
  pose proof (reinitializeWorker_quiet (refs c) e) as Q.
  unfold click_resetAnalysis, resetAnalysis.
  destruct (reinitializeWorker (refs c) e) as [r1 evs]. cbn [fst snd] in *.
  match goal with
  | |- context [commit c ?r ?evs fx] =>
      destruct (commit_state_empty c r evs fx) as [-> ->]
  end.
  - rewrite (reduce_reset_prefix _ _ _ Q); reflexivity.
  - rewrite (reduce_reset_prefix _ _ _ Q). split; reflexivity.
Qed.

Lemma close_state c e fx :
  state (fst (close_modal c e fx))
  = mkSnapshot [] true false (isFrontCamera (state c)) JNull false
      (calendarEvents (state c)) (isLoading (state c))
  /\ refs (fst (close_modal c e fx))
     = fst (reinitializeWorker (refs c) e).
Proof.
  pose proof (reinitializeWorker_quiet (refs c) e) as Q.
  unfold close_modal, onClose.
  destruct (reinitializeWorker (refs c) e) as [r1 evs]. cbn [fst snd] in *.
  assert (E : forall s tl,
             reduce s ([SetIsCalendarOpen false; SetDay JNull;
                        SetHasValidResult false; SetExtractedText [];
                        SetIsAnalyzing true] ++ evs ++ tl)
             = reduce (mkSnapshot [] true false (isFrontCamera s) JNull
                         false (calendarEvents s) (isLoading s)) tl).
  { intros s tl. rewrite reduce_app, reduce_app, Q. reflexivity. }
  match goal with
  | |- context [commit c ?r ?evs fx] =>
      destruct (commit_state_empty c r evs fx) as [-> ->]
  end.
  - rewrite E. unfold startAnalysis.
    destruct (hasValidResult (state c)); reflexivity.
  - rewrite E. unfold startAnalysis.
    destruct (hasValidResult (state c)); split; reflexivity.
Qed.

(** C7, as the code has it: a camera toggle clears [hasValidResult],
    [extractedText] and [isAnalyzing] and leaves the attempt counter and
    the last-success time as they were.  A manual reset and a modal
    dismissal always clear [hasValidResult] and [extractedText] and set
    [isAnalyzing] to true, whatever the OCR library answers; when the
    worker is set up again without error they set the attempt counter to
    0 and the last-success time to the clock, and when a worker is in
    place and a call of the set-up rejects they leave both as they
    were. *)
Theorem C7_what_each_reset_restores :
  forall c fx e,
    analysis_state (fst (click_toggleCamera c fx))
      = mkAnalysisState false false [] (analysisCountRef (refs c))
                        (lastSuccessRef (refs c))
    /\ (isAnalyzing (state (fst (click_resetAnalysis c e fx))) = true
        /\ hasValidResult (state (fst (click_resetAnalysis c e fx))) = false
        /\ extractedText (state (fst (click_resetAnalysis c e fx))) = [])
    /\ (isAnalyzing (state (fst (close_modal c e fx))) = true
        /\ hasValidResult (state (fst (close_modal c e fx))) = false
        /\ extractedText (state (fst (close_modal c e fx))) = [])
    /\ (setup_succeeds e = true ->
        analysis_state (fst (click_resetAnalysis c e fx))
          = mkAnalysisState true false [] 0 (clock_after e)
        /\ analysis_state (fst (close_modal c e fx))
          = mkAnalysisState true false [] 0 (clock_after e))
    /\ (forall w,
          workerRef (refs c) = Some w ->
          setup_succeeds e = false ->
          analysis_state (fst (click_resetAnalysis c e fx))
            = mkAnalysisState true false [] (analysisCountRef (refs c))
                              (lastSuccessRef (refs c))
          /\ analysis_state (fst (close_modal c e fx))
            = mkAnalysisState true false [] (analysisCountRef (refs c))
                              (lastSuccessRef (refs c))).
Proof.
  intros c fx e.
  destruct (reset_state c e fx) as [Rs Rr].
  destruct (close_state c e fx) as [Cs Cr].
  split.
  { unfold click_toggleCamera, analysis_state.
    destruct (commit_state_empty c (refs c) (toggleCamera (state c)) fx
                eq_refl) as [-> ->].
    reflexivity. }
  split; [rewrite Rs; repeat split; reflexivity|].
  split; [rewrite Cs; repeat split; reflexivity|].
  split.
  - intros He.
    destruct (reinitializeWorker_succeeds (refs c) e He)
      as (w & _ & Hr & _).
    unfold analysis_state. rewrite Rs, Rr, Cs, Cr, Hr.
    split; reflexivity.
  - intros w Hw Hno.
    destruct (reinitializeWorker_fails (refs c) w e Hw Hno)
      as (Fc & Fl & _).
    unfold analysis_state. rewrite Rs, Rr, Cs, Cr, Fc, Fl.
    split; reflexivity.
Qed.

Lemma C7_witness :
  analysis_state
    (fst (click_resetAnalysis demo_component (working_setup 2%nat 9000)
            demo_fx))
  = mkAnalysisState true false [] 0 9000
  /\ analysis_state
       (fst (click_resetAnalysis demo_component (failing_setup 9000)
               demo_fx))
     = mkAnalysisState true false [] 5 1000.
Proof.
  split.
  - destruct (C7_what_each_reset_restores demo_component demo_fx
                (working_setup 2%nat 9000)) as (_ & _ & _ & S & _).
    destruct S as [H _]; [reflexivity | exact H].
  - destruct (C7_what_each_reset_restores demo_component demo_fx
                (failing_setup 9000)) as (_ & _ & _ & _ & F).
    destruct (F 1%nat) as [H _]; [reflexivity | reflexivity | exact H].
Defined.

(** C7 as the specification words it fails: with five attempts counted, a
    camera toggle leaves the counter at five, also after the scheduled
    [initializeCamera] has run, and a manual reset or a modal dismissal
    leaves [isAnalyzing] true; none of the three states is the initial
    one, whatever the initial clock was. *)
Lemma C7_counterexample :
  let toggled := fst (click_toggleCamera demo_component demo_fx) in
  let restarted :=
    fst (fire_timeout toggled 0 (Some [8%nat]) demo_fx) in
  as_attemptCount (analysis_state toggled) = 5
  /\ as_attemptCount (analysis_state restarted) = 5
  /\ as_isAnalyzing
       (analysis_state
          (fst (click_resetAnalysis demo_component (working_setup 2%nat 9000)
                  demo_fx))) = true
  /\ as_isAnalyzing
       (analysis_state
          (fst (close_modal demo_component (working_setup 2%nat 9000)
                  demo_fx))) = true
  /\ forall t,
       analysis_state toggled <> initial_analysis_state t
       /\ analysis_state restarted <> initial_analysis_state t
       /\ analysis_state
            (fst (click_resetAnalysis demo_component (working_setup 2%nat 9000)
                    demo_fx)) <> initial_analysis_state t
       /\ analysis_state
            (fst (close_modal demo_component (working_setup 2%nat 9000)
                    demo_fx)) <> initial_analysis_state t.
Proof.
  cbv zeta. repeat split; try (vm_compute; reflexivity);
    vm_compute; intros H; discriminate H.
Qed.

(* ===================================================================== *)
(** ** Failures of the submission *)
(* ===================================================================== *)

(** C8, as the code has it: when the POST throws or the response body is
    empty (falsy), whatever the status, [sendToApi] posts, logs the error
    and stops; the only state it has set is [isLoading], to true, so
    neither the schedule nor the calendar nor an error is shown and the
    loading flag stays true. *)
Theorem C8_failed_submission_only_logs :
  forall t id e,
    getRoomId t = Some id ->
    no_body (http e) = true ->
    sendToApi t e
      = [SetIsLoading true;
         HttpPost (today e)
           [mkRoom id t (if endsWith t (lit "-TP") then lit "#FFFFBF"
                         else lit "#FFD7B0")];
         ConsoleError MsgApiError]
    /\ forall s,
         reduce s (sendToApi t e)
         = mkSnapshot (extractedText s) (isAnalyzing s) (hasValidResult s)
             (isFrontCamera s) (day s) (isCalendarOpen s)
             (calendarEvents s) true.
Proof.
  intros t id e Hid Hb.
  assert (E : sendToApi t e
      = [SetIsLoading true;
         HttpPost (today e)
           [mkRoom id t (if endsWith t (lit "-TP") then lit "#FFFFBF"
                         else lit "#FFD7B0")];
         ConsoleError MsgApiError]).
  { unfold sendToApi. rewrite Hid.
    pose proof (getRoomId_nonzero t id Hid) as Hz.
    apply Z.eqb_neq in Hz; rewrite Hz.
    destruct (http e) as [|st data]; [reflexivity|].
    cbn [no_body] in Hb. rewrite Hb. reflexivity. }
  split; [exact E|]. intros s. rewrite E. reflexivity.
Qed.

Lemma C8_witness :
  sendToApi (lit "M03-TP")
    (mkEffectEnv (lit "2025-01-15") (HttpResponse 500 (JStr [])))
  = [SetIsLoading true;
     HttpPost (lit "2025-01-15")
       [mkRoom 19393 (lit "M03-TP") (lit "#FFFFBF")];
     ConsoleError MsgApiError].
Proof.
  apply (C8_failed_submission_only_logs (lit "M03-TP") 19393
           (mkEffectEnv (lit "2025-01-15") (HttpResponse 500 (JStr []))));
    reflexivity.
Defined.

(** C8 as the specification words it fails on a non-success response
    that carries a body: with status 500 and the body
    [Internal Server Error], [sendToApi] logs no error and stores the
    body in [day]. *)
Lemma C8_counterexample :
  let body := JStr (lit "Internal Server Error") in
  let e := mkEffectEnv (lit "2025-01-15") (HttpResponse 500 body) in
  sendToApi (lit "M03-TP") e
    = [SetIsLoading true;
       HttpPost (lit "2025-01-15")
         [mkRoom 19393 (lit "M03-TP") (lit "#FFFFBF")];
       SetDay body;
       ConsoleLog (MsgApiResponse body)]
  /\ day (reduce initial_snapshot (sendToApi (lit "M03-TP") e)) = body
  /\ day initial_snapshot <> body
  /\ ~ In (ConsoleError MsgApiError) (sendToApi (lit "M03-TP") e).
Proof.
  cbv zeta. split; [vm_compute; reflexivity|].
  split; [vm_compute; reflexivity|].
  split; [vm_compute; discriminate|].
  vm_compute. intros H.
  repeat (destruct H as [H|H]; [discriminate H|]). exact H.
Qed.

(* ===================================================================== *)
(** ** Text that is no room token *)
(* ===================================================================== *)




(* ===================================================================== *)
(** ** The watchdog *)
(* ===================================================================== *)

Lemma reinitializeWorker_no_recognize r e :
  existsb is_recognize (snd (reinitializeWorker r e)) = false.
Proof.
  unfold reinitializeWorker, create_and_configure.
  destruct (workerRef r), (terminate_ok e), (created e),
    (loadLanguage_ok e), (initialize_ok e), (setParameters_ok e);
    reflexivity.
Qed.

(** What an attempt that ran the engine and found nothing leaves
    behind. *)
Lemma analyzeFrame_failed snap r frame e :
  failed_attempt (snd (analyzeFrame snap r frame e)) = true ->
  hasValidResult snap = false
  /\ workerRef r <> None
  /\ workerRef (fst (analyzeFrame snap r frame e)) = workerRef r
  /\ lastSuccessRef (fst (analyzeFrame snap r frame e)) = lastSuccessRef r
  /\ analysisCountRef (fst (analyzeFrame snap r frame e))
     = js_succ (analysisCountRef r).
Proof.
  unfold analyzeFrame, failed_attempt.
  destruct (workerRef r) as [w|] eqn:Hw; [|discriminate].
  destruct (truthy_str frame); cbn [negb orb]; [|discriminate].
  destruct (hasValidResult snap); [discriminate|].
  match goal with |- context [if ?b then _ else _] => destruct b end.
  - rewrite reinitializeWorker_no_recognize. discriminate.
  - destruct (ocr e) as [|t].
    + intros _. cbn [fst]. repeat split; try reflexivity; try exact Hw.
      discriminate.
    + destruct (snd (scan_lines _)); [discriminate|].
      intros _. cbn [fst]. repeat split; try reflexivity; try exact Hw.
      discriminate.
Qed.

Lemma js_succ_bound k c :
  Z.min k 9007199254740992 <= c ->
  Z.min (k + 1) 9007199254740992 <= js_succ c.
Proof.
  unfold js_succ. destruct (Z.ltb_spec c 9007199254740992); lia.
Qed.

(** A run of failed attempts keeps the worker and the last-success time
    and counts every attempt. *)
Lemma attempts_failed snap inputs : forall r k,
  forallb failed_attempt (snd (attempts snap r inputs)) = true ->
  Z.min k 9007199254740992 <= analysisCountRef r ->
  let r' := fst (attempts snap r inputs) in
  lastSuccessRef r' = lastSuccessRef r
  /\ Z.min (k + Z.of_nat (length inputs)) 9007199254740992
     <= analysisCountRef r'
  /\ (inputs <> [] -> hasValidResult snap = false /\ workerRef r' <> None).
Proof.
  induction inputs as [|[frame e] rest IH]; intros r k H Hk.
  - cbn [attempts fst snd length Z.of_nat]. rewrite Z.add_0_r.
    split; [reflexivity|]. split; [exact Hk|]. congruence.
  - cbn [attempts] in *.
    destruct (analyzeFrame snap r frame e) as [r1 evs] eqn:E1.
    destruct (attempts snap r1 rest) as [r2 traces] eqn:E2.
    cbn [fst snd forallb] in *.
    apply andb_prop in H; destruct H as [Hf Hrest].
    pose proof (analyzeFrame_failed snap r frame e) as A.
    rewrite E1 in A; cbn [fst snd] in A.
    destruct (A Hf) as (Hv & Hw & Hw1 & Hl & Hc).
    specialize (IH r1 (k + 1)). rewrite E2 in IH; cbn [fst snd] in IH.
    destruct (IH Hrest) as (Hl2 & Hc2 & Hne).
    { rewrite Hc. apply js_succ_bound; exact Hk. }
    split; [congruence|]. split.
    { cbn [length]. rewrite Nat2Z.inj_succ. replace (k + Z.succ (Z.of_nat (length rest)))
        with (k + 1 + Z.of_nat (length rest)) by lia. exact Hc2. }
    intros _. split; [exact Hv|].
    destruct rest as [|x rest'].
    + cbn in E2. inversion E2; subst r2. congruence.
    + apply Hne; discriminate.
Qed.

Lemma reinitializeWorker_starts_once r e :
  length (filter is_reinit_start (snd (reinitializeWorker r e))) = 1%nat.
Proof.
  unfold reinitializeWorker, create_and_configure.
  destruct (workerRef r), (terminate_ok e), (created e),
    (loadLanguage_ok e), (initialize_ok e), (setParameters_ok e);
    reflexivity.
Qed.

Lemma js_succ_above c : 20 <= c -> 20 <= js_succ c /\ (js_succ c >? 20) = true.
Proof.
  intros H. unfold js_succ.
  destruct (Z.ltb_spec c 9007199254740992);
    (split; [lia | apply Z.gtb_lt; lia]).
Qed.

(** The watchdog branch of [analyzeFrame]. *)
Lemma analyzeFrame_fires snap r frame e :
  workerRef r <> None ->
  truthy_str frame = true ->
  hasValidResult snap = false ->
  now e - lastSuccessRef r > 10000 ->
  20 <= analysisCountRef r ->
  analyzeFrame snap r frame e
  = reinitializeWorker (set_analysisCount r (js_succ (analysisCountRef r)))
                       (reinit e).
Proof.
  intros Hw Hf Hv Ht Hc. unfold analyzeFrame.
  destruct (workerRef r) as [w|]; [|congruence].
  rewrite Hf, Hv. cbn [negb orb].
  cbn [set_analysisCount lastSuccessRef analysisCountRef].
  rewrite (proj2 (js_succ_above _ Hc)).
  replace (now e - lastSuccessRef r >? 10000) with true
    by (symmetry; apply Z.gtb_lt; lia).
  reflexivity.
Qed.

(** C3, as the code has it: after a run of twenty or more failed
    attempts (so also after 21), once more than 10 000 ms have passed
    since the last-success time, the next call of [analyzeFrame] starts
    [reinitializeWorker] exactly once and hands no frame to the engine,
    whatever the OCR library answers.  When the re-creation goes through
    without error, one worker is created, the attempt counter is 0 and
    the last-success time is the clock right after it, and the call that
    follows runs the engine again without another re-creation.  When a
    call of the re-creation rejects, the counter keeps its incremented
    value and the last-success time is unchanged, and the call that
    follows starts [reinitializeWorker] again instead of an attempt. *)
Theorem C3_watchdog_reinitializes_once :
  forall snap r0 inputs frame e,
    0 <= analysisCountRef r0 ->
    (20 <= length inputs)%nat ->
    forallb failed_attempt (snd (attempts snap r0 inputs)) = true ->
    truthy_str frame = true ->
    now e - lastSuccessRef r0 > 10000 ->
    let r := fst (attempts snap r0 inputs) in
    let r' := fst (analyzeFrame snap r frame e) in
    let evs := snd (analyzeFrame snap r frame e) in
    lastSuccessRef r = lastSuccessRef r0
    /\ length (filter is_reinit_start evs) = 1%nat
    /\ existsb is_recognize evs = false
    /\ (setup_succeeds (reinit e) = true ->
        length (filter is_create evs) = 1%nat
        /\ analysisCountRef r' = 0
        /\ lastSuccessRef r' = clock_after (reinit e)
        /\ forall frame2 e2,
             truthy_str frame2 = true ->
             existsb is_recognize (snd (analyzeFrame snap r' frame2 e2))
               = true
             /\ existsb is_reinit_start
                  (snd (analyzeFrame snap r' frame2 e2)) = false
             /\ existsb is_create (snd (analyzeFrame snap r' frame2 e2))
                = false)
    /\ (setup_succeeds (reinit e) = false ->
        analysisCountRef r' = js_succ (analysisCountRef r)
        /\ lastSuccessRef r' = lastSuccessRef r
        /\ forall frame2 e2,
             truthy_str frame2 = true ->
             now e2 - lastSuccessRef r' > 10000 ->
             existsb is_recognize (snd (analyzeFrame snap r' frame2 e2))
               = false
             /\ length (filter is_reinit_start
                          (snd (analyzeFrame snap r' frame2 e2))) = 1%nat).
Proof.
  intros snap r0 inputs frame e H0 Hlen Hfail Hframe Htime r.
  destruct (attempts_failed snap inputs r0 0 Hfail) as (Hl & Hc & Hne);
    [lia|].
  fold r in Hl, Hc, Hne.
  destruct Hne as [Hv Hw]; [destruct inputs; [cbn in Hlen; lia|discriminate]|].
  assert (Hc20 : 20 <= analysisCountRef r) by lia.
  assert (E : analyzeFrame snap r frame e
            = reinitializeWorker
                (set_analysisCount r (js_succ (analysisCountRef r)))
                (reinit e))
    by (apply analyzeFrame_fires; auto; lia).
  cbv zeta. rewrite E.
  split; [exact Hl|].
  split; [apply reinitializeWorker_starts_once|].
  split; [apply reinitializeWorker_no_recognize|].
  split.
  - intros Hok.
    destruct (reinitializeWorker_succeeds
                (set_analysisCount r (js_succ (analysisCountRef r)))
                (reinit e) Hok) as (w' & _ & Hr & Hone & _).
    rewrite Hr. split; [exact Hone|].
    split; [reflexivity|]. split; [reflexivity|].
    intros frame2 e2 Hf2. unfold analyzeFrame.
    cbn [workerRef set_analysisCount videoRef canvasRef streamRef].
    rewrite Hf2, Hv. cbn [negb orb analysisCountRef lastSuccessRef].
    change (js_succ 0 >? 20) with false. rewrite andb_false_r.
    destruct (ocr e2) as [|t]; [repeat split; reflexivity|].
    destruct (snd (scan_lines _)); repeat split; reflexivity.
  - intros Hno.
    destruct (workerRef r) as [w|] eqn:Ew; [|congruence].
    destruct (reinitializeWorker_fails
                (set_analysisCount r (js_succ (analysisCountRef r))) w
                (reinit e) Ew Hno) as (Fc & Fl & Fw).
    cbn [set_analysisCount analysisCountRef lastSuccessRef] in Fc, Fl.
    split; [exact Fc|]. split; [exact Fl|].
    intros frame2 e2 Hf2 Ht2.
    rewrite analyzeFrame_fires; auto.
    + split; [apply reinitializeWorker_no_recognize
             | apply reinitializeWorker_starts_once].
    + rewrite Fc. apply js_succ_above, Hc20.
Qed.

Lemma C3_witness :
  analysisCountRef
    (fst (analyzeFrame initial_snapshot
            (fst (attempts initial_snapshot demo_refs (noise_inputs 21)))
            (lit "data:image/jpeg")
            (mkAnalyzeEnv 10400 (working_setup 2%nat 10450)
                          (OcrText (Some (lit "noise")))))) = 0.
Proof.
  destruct (C3_watchdog_reinitializes_once initial_snapshot demo_refs
              (noise_inputs 21) (lit "data:image/jpeg")
              (mkAnalyzeEnv 10400 (working_setup 2%nat 10450)
                            (OcrText (Some (lit "noise")))))
    as (_ & _ & _ & S & _).
  - vm_compute; discriminate.
  - vm_compute. apply Nat.leb_le. reflexivity.
  - vm_compute; reflexivity.
  - reflexivity.
  - vm_compute; reflexivity.
  - destruct S as (_ & H & _); [reflexivity | exact H].
Defined.

(** C3 as the specification words it fails when the re-creation is
    refused: after 21 failed attempts and more than 10 000 ms, the
    watchdog call finds [createWorker] rejecting; the attempt counter is
    then 22 and the last-success time is unchanged, and the call after it
    starts a second re-creation without any attempt in between. *)
Lemma C3_counterexample :
  let r := fst (attempts initial_snapshot demo_refs (noise_inputs 21)) in
  let e := mkAnalyzeEnv 10400 (failing_setup 10450)
                        (OcrText (Some (lit "noise"))) in
  let e2 := mkAnalyzeEnv 10900 (working_setup 2%nat 10950)
                         (OcrText (Some (lit "noise"))) in
  let frame := lit "data:image/jpeg" in
  let r' := fst (analyzeFrame initial_snapshot r frame e) in
  length (noise_inputs 21) = 21%nat
  /\ forallb failed_attempt
       (snd (attempts initial_snapshot demo_refs (noise_inputs 21))) = true
  /\ now e - lastSuccessRef r > 10000
  /\ length (filter is_create (snd (analyzeFrame initial_snapshot r frame e)))
     = 1%nat
  /\ analysisCountRef r' = 22
  /\ lastSuccessRef r' = lastSuccessRef r
  /\ existsb is_recognize (snd (analyzeFrame initial_snapshot r' frame e2))
     = false
  /\ length (filter is_create
               (snd (analyzeFrame initial_snapshot r' frame e2))) = 1%nat.
Proof.
  cbv zeta. repeat split; vm_compute; reflexivity.
Qed.

(* ===================================================================== *)
(** ** The analysis loop after a valid result *)
(* ===================================================================== *)

(** The three guards do stop the work when the value their closure holds
    is true. *)
Lemma guards_on_captured_value snap r e frame ae :
  hasValidResult snap = true ->
  analyzeLoop snap r e = (r, [ClearInterval])
  /\ captureFrame snap r (dataURL e) = (None, [])
  /\ analyzeFrame snap r frame ae = (r, []).
Proof.
  intros H. unfold analyzeLoop, captureFrame, analyzeFrame. rewrite H.
  rewrite !orb_true_r. destruct (workerRef r); repeat split; reflexivity.
Qed.

(** [startAnalysis] only ever builds a loop around a render that has no
    valid result: the loop's own guard is never met. *)
Lemma startAnalysis_closure snap cb :
  In cb (new_intervals (startAnalysis snap)) ->
  cb = CbAnalyzeLoop snap /\ hasValidResult snap = false.
Proof.
  unfold startAnalysis. destruct (hasValidResult snap); cbn; [tauto|].
  intros [<-|[]]; split; reflexivity.
Qed.

(** A tick of a live loop depends on the render the loop was built in,
    not on the state of the component: with the elements and a worker in
    place it captures a frame, and hands it to the engine unless the
    watchdog fires. *)
Lemma tick_ignores_current_state c i snap e fx w :
  nth_error (intervals c) i = Some (CbAnalyzeLoop snap) ->
  hasValidResult snap = false ->
  videoRef (refs c) = true -> canvasRef (refs c) = true ->
  workerRef (refs c) = Some w ->
  truthy_str (dataURL e) = true ->
  existsb is_capture (snd (tick c i e fx)) = true
  /\ ((now (analyze e) - lastSuccessRef (refs c) >? 10000)
        && (js_succ (analysisCountRef (refs c)) >? 20) = false ->
      existsb is_recognize (snd (tick c i e fx)) = true).
Proof.
  intros Hi Hv Hvid Hcan Hw Hd. unfold tick. rewrite Hi.
  unfold analyzeLoop, captureFrame. rewrite Hv, Hw, Hvid, Hcan.
  cbn [negb orb app]. rewrite Hw. cbn [orb]. rewrite Hd.
  destruct (analyzeFrame snap (refs c) (dataURL e) (analyze e))
    as [r2 evs3] eqn:E.
  unfold commit.
  match goal with
  | |- context [if existsb ?f ?l then _ else _] => destruct (existsb f l)
  end; cbn [snd app existsb is_capture orb]; (split; [reflexivity|]).
  all: intros Hwd; cbn [existsb is_recognize orb]; rewrite existsb_app;
    apply orb_true_intro; left.
  all: revert E; unfold analyzeFrame; rewrite Hw, Hd, Hv; cbn [negb orb].
  all: cbn [set_analysisCount lastSuccessRef analysisCountRef]; rewrite Hwd.
  all: destruct (ocr (analyze e)) as [|t];
    [intros E; inversion E; subst evs3; reflexivity|].
  all: destruct (snd (scan_lines _)); intros E; inversion E; subst evs3; reflexivity.
Qed.

(** *** No loop is ever stopped *)

Lemma no_timer_events evs :
  existsb is_timer evs = false ->
  new_intervals evs = [] /\ existsb is_clear evs = false.
Proof.
  induction evs as [|ev evs IH]; [split; reflexivity|].
  cbn [existsb]. intros H. apply orb_false_iff in H. destruct H as [H1 H2].
  destruct (IH H2) as [I1 I2].
  destruct ev; try discriminate H1; cbn; auto.
Qed.

Lemma new_intervals_app evs1 evs2 :
  new_intervals (evs1 ++ evs2) = new_intervals evs1 ++ new_intervals evs2.
Proof.
  induction evs1 as [|ev evs1 IH]; [reflexivity|].
  destruct ev; cbn; rewrite ?IH; reflexivity.
Qed.

Lemma reinitializeWorker_no_timer r e :
  existsb is_timer (snd (reinitializeWorker r e)) = false.
Proof.
  unfold reinitializeWorker, create_and_configure.
  destruct (workerRef r), (terminate_ok e), (created e),
    (loadLanguage_ok e), (initialize_ok e), (setParameters_ok e);
    reflexivity.
Qed.

Lemma analyzeFrame_no_timer snap r frame e :
  existsb is_timer (snd (analyzeFrame snap r frame e)) = false.
Proof.
  unfold analyzeFrame.
  destruct (workerRef r); [|reflexivity].
  destruct (negb (truthy_str frame) || hasValidResult snap); [reflexivity|].
  match goal with |- context [if ?b then _ else _] => destruct b end;
    [apply reinitializeWorker_no_timer|].
  destruct (ocr e) as [|t]; [reflexivity|].
  destruct (snd (scan_lines _)); reflexivity.
Qed.

Lemma analyzeLoop_no_timer snap r e :
  hasValidResult snap = false ->
  existsb is_timer (snd (analyzeLoop snap r e)) = false.
Proof.
  intros Hv. unfold analyzeLoop, captureFrame. rewrite Hv.
  assert (P : forall r1 evs1,
            existsb is_timer evs1 = false ->
            existsb is_timer
              (snd (let '(frameData, evs2) :=
                      if negb (videoRef r1) || negb (canvasRef r1)
                         || match workerRef r1 with
                            | Some _ => false | None => true end
                         || false
                      then (None, [])
                      else (Some (dataURL e), [DrawImage; ToDataURL]) in
                    match frameData with
                    | Some f =>
                        if truthy_str f then
                          let '(r2, evs3) :=
                            analyzeFrame snap r1 f (analyze e) in
                          (r2, evs1 ++ evs2 ++ evs3)
                        else (r1, evs1 ++ evs2)
                    | None => (r1, evs1 ++ evs2)
                    end)) = false).
  { intros r1 evs1 H1.
    destruct (negb (videoRef r1) || negb (canvasRef r1)
              || match workerRef r1 with Some _ => false | None => true end
              || false).
    - cbn [snd]. rewrite app_nil_r. exact H1.
    - destruct (truthy_str (dataURL e)).
      + pose proof (analyzeFrame_no_timer snap r1 (dataURL e) (analyze e))
          as A.
        destruct (analyzeFrame snap r1 (dataURL e) (analyze e))
          as [r2 evs3].
        cbn [snd] in *. rewrite !existsb_app, H1, A. reflexivity.
      + cbn [snd]. rewrite existsb_app, H1. reflexivity. }
  destruct (workerRef r) as [w|] eqn:Hw.
  - apply (P r []). reflexivity.
  - pose proof (reinitializeWorker_no_timer r (setup_missing e)) as R.
    destruct (reinitializeWorker r (setup_missing e)) as [r1 evs1].
    apply (P r1 evs1 R).
Qed.

Lemma commit_intervals c r evs fx :
  intervals (fst (commit c r evs fx)) = intervals c ++ new_intervals evs.
Proof. reflexivity. Qed.

Lemma blind_startAnalysis snap : Forall blind (new_intervals (startAnalysis snap)).
Proof.
  unfold startAnalysis. destruct (hasValidResult snap) eqn:H; cbn;
    [constructor|]. constructor; [exact H | constructor].
Qed.

Lemma blind_initializeCamera snap r media :
  Forall blind (new_intervals (snd (initializeCamera snap r media))).
Proof.
  unfold initializeCamera, stopCurrentStream.
  assert (S : forall tracks, new_intervals (map TrackStop tracks) = []).
  { induction tracks; cbn; auto. }
  assert (S' : new_intervals
                 (match streamRef r with
                  | Some tracks => map TrackStop tracks | None => [] end)
               = []).
  { destruct (streamRef r); [apply S | reflexivity]. }
  destruct media as [stream|]; cbn [snd]; rewrite new_intervals_app, S';
    cbn [app new_intervals]; [|constructor].
  destruct (videoRef r); [apply blind_startAnalysis | constructor].
Qed.

(** A tick of a loop built without a valid result leaves every loop in
    place. *)
Lemma tick_keeps_loops c i e fx :
  Forall blind (intervals c) ->
  intervals (fst (tick c i e fx)) = intervals c.
Proof.
  intros B. unfold tick.
  destruct (nth_error (intervals c) i) as [cb|] eqn:Hi; [|reflexivity].
  destruct cb as [snap|snap|snap]; try reflexivity.
  assert (Hv : hasValidResult snap = false).
  { apply nth_error_In in Hi. rewrite Forall_forall in B.
    exact (B _ Hi). }
  pose proof (analyzeLoop_no_timer snap (refs c) e Hv) as T.
  destruct (analyzeLoop snap (refs c) e) as [r evs]. cbn [snd] in T.
  destruct (no_timer_events evs T) as [N C].
  pose proof (commit_intervals c r evs fx) as I.
  destruct (commit c r evs fx) as [c1 all]. cbn [fst] in I.
  rewrite C. cbn [fst]. rewrite I, N. apply app_nil_r.
Qed.

(** Every loop of a reachable component was built in a render without a
    valid result: its guard never fires, and no tick stops it. *)
Lemma reachable_loops_blind c : reachable c -> Forall blind (intervals c).
Proof.
  induction 1 as [mounted tess media fx | c i e fx _ IH | c j media fx _ IH
                  | c fx _ IH | c e fx _ IH | c e fx _ IH].
  - unfold mount.
    destruct (initializeTesseract (initial_refs mounted) tess)
      as [r1 evs1] eqn:E1.
    pose proof (blind_initializeCamera initial_snapshot r1 media) as B.
    destruct (initializeCamera initial_snapshot r1 media) as [r2 evs2].
    rewrite commit_intervals. cbn [intervals app snd] in *.
    rewrite new_intervals_app.
    replace (new_intervals evs1) with (@nil Callback); [exact B|].
    revert E1. unfold initializeTesseract, create_and_configure.
    destruct (created tess), (loadLanguage_ok tess), (initialize_ok tess),
      (setParameters_ok tess); intros E; inversion E; reflexivity.
  - rewrite tick_keeps_loops; assumption.
  - unfold fire_timeout.
    destruct (nth_error (timeouts c) j) as [cb|]; [|exact IH].
    destruct cb as [snap|snap|snap]; [| |exact IH].
    + pose proof (blind_initializeCamera snap (refs c) media) as B.
      destruct (initializeCamera snap (refs c) media) as [r evs].
      rewrite commit_intervals. cbn [intervals snd] in *.
      apply Forall_app; split; assumption.
    + rewrite commit_intervals. cbn [intervals].
      apply Forall_app; split; [exact IH | apply blind_startAnalysis].
  - unfold click_toggleCamera. rewrite commit_intervals.
    cbn. rewrite app_nil_r. exact IH.
  - unfold click_resetAnalysis, resetAnalysis.
    pose proof (reinitializeWorker_no_timer (refs c) e) as T.
    destruct (reinitializeWorker (refs c) e) as [r evs]. cbn [snd] in T.
    destruct (no_timer_events evs T) as [N _].
    rewrite commit_intervals. cbn [app new_intervals].
    rewrite new_intervals_app, N. cbn. rewrite app_nil_r. exact IH.
  - unfold close_modal, onClose.
    pose proof (reinitializeWorker_no_timer (refs c) e) as T.
    destruct (reinitializeWorker (refs c) e) as [r evs]. cbn [snd] in T.
    destruct (no_timer_events evs T) as [N _].
    rewrite commit_intervals. cbn [app new_intervals].
    rewrite new_intervals_app, N. cbn [app].
    apply Forall_app; split; [exact IH | apply blind_startAnalysis].
Qed.

(** In a reachable component a tick of a live loop captures a frame and
    leaves the loops in place, whatever [hasValidResult] is in the state
    of the component. *)
Lemma reachable_tick_captures c i snap e fx w :
  reachable c ->
  nth_error (intervals c) i = Some (CbAnalyzeLoop snap) ->
  videoRef (refs c) = true -> canvasRef (refs c) = true ->
  workerRef (refs c) = Some w ->
  truthy_str (dataURL e) = true ->
  existsb is_capture (snd (tick c i e fx)) = true
  /\ intervals (fst (tick c i e fx)) = intervals c.
Proof.
  intros R Hi Hvid Hcan Hw Hd.
  pose proof (reachable_loops_blind c R) as B.
  split; [|apply tick_keeps_loops; exact B].
  assert (Hv : hasValidResult snap = false).
  { rewrite Forall_forall in B. exact (B _ (nth_error_In _ _ Hi)). }
  exact (proj1 (tick_ignores_current_state c i snap e fx w
                  Hi Hv Hvid Hcan Hw Hd)).
Qed.

(** C2 does not hold of the loop that [startAnalysis] starts: its
    callback tests the [hasValidResult] of the render it was created in.
    After mount, a tick reads [M03-TP] and [hasValidResult] becomes true;
    with no reset in between, the loop is still live and its next tick
    captures a frame, runs the engine on it, writes the token [M05-TP] it
    reads and posts a second submission. *)
Theorem C2_loop_runs_on_after_valid_result :
  let c0 := fst (mount 0 (working_setup 1%nat 100) (Some [7%nat]) demo_fx) in
  let c1 := fst (tick c0 0 (reading 600 (lit "M03-TP")) demo_fx) in
  let c2 := tick c1 0 (reading 1100 (lit "M05-TP")) demo_fx in
  intervals c0 = [CbAnalyzeLoop initial_snapshot]
  /\ hasValidResult (state c0) = false
  /\ hasValidResult (state c1) = true
  /\ intervals c1 = intervals c0
  /\ existsb is_capture (snd c2) = true
  /\ existsb is_recognize (snd c2) = true
  /\ existsb is_post (snd c2) = true
  /\ hasValidResult (state (fst c2)) = true
  /\ extractedText (state (fst c2)) = lit "M05-TP".
Proof.
  cbv zeta. repeat split; vm_compute; reflexivity.
Qed.

(* ===================================================================== *)
(** ** Further properties: normalisation and tokens *)
(* ===================================================================== *)

Lemma is_digit_clean c :
  is_digit c = true -> is_space c = false /\ is_oO c = false.
Proof.
  unfold is_digit, is_space, is_oO, chr. cbn [N_of_ascii N_of_digits].
  intros H. apply andb_prop in H. destruct H as [H1 H2].
  apply N.leb_le in H1, H2. cbn in H1, H2.
  repeat match goal with
    | |- context [(?a <=? ?b)%N] => destruct (N.leb_spec a b); try lia
    | |- context [(?a =? ?b)%N] => destruct (N.eqb_spec a b); try lia
    end; cbn; split; reflexivity.
Qed.

Lemma normalize_clean s :
  forallb (fun c => negb (is_space c) && negb (is_oO c)) s = true ->
  spec_normalize s = s.
Proof.
  unfold spec_normalize. induction s as [|c s IH]; [reflexivity|].
  cbn [forallb map filter]. intros H.
  apply andb_prop in H. destruct H as [Hc Hs].
  apply andb_prop in Hc. destruct Hc as [H1 H2].
  apply negb_true_iff in H1, H2. rewrite H2, H1. cbn [negb].
  rewrite IH by exact Hs. reflexivity.
Qed.

Lemma normalize_is_clean s :
  forallb (fun c => negb (is_space c) && negb (is_oO c)) (spec_normalize s)
  = true.
Proof.
  unfold spec_normalize. induction s as [|c s IH]; [reflexivity|].
  cbn [map filter]. destruct (is_oO c) eqn:Ho.
  - cbn. exact IH.
  - destruct (is_space c) eqn:Hs; cbn [negb]; [exact IH|].
    cbn [forallb]. rewrite Hs, Ho. exact IH.
Qed.

(** X1: [preprocessText] leaves no whitespace and no letter [o]/[O]
    behind, and applying it a second time changes nothing. *)
Theorem X1_preprocessText_idempotent :
  forall s,
    forallb (fun c => negb (is_space c) && negb (is_oO c))
            (preprocessText s) = true
    /\ preprocessText (preprocessText s) = preprocessText s.
Proof.
  intros s. rewrite !preprocessText_normalize.
  split; [apply normalize_is_clean|].
  apply normalize_clean, normalize_is_clean.
Qed.

Lemma token_clean t :
  token_grammar t ->
  forallb (fun c => negb (is_space c) && negb (is_oO c)) t = true
  /\ (5 <= length t <= 6)%nat.
Proof.
  intros (ds & x & -> & Hlen & Hd & Hx).
  assert (Hx' : is_space x = false /\ is_oO x = false)
    by (destruct Hx; subst x; split; reflexivity).
  destruct Hx' as [Hx1 Hx2].
  destruct ds as [|d1 [|d2 [|d3 ds]]]; cbn in Hlen; try lia;
    cbn in Hd; repeat (apply andb_prop in Hd; destruct Hd as [?H Hd]).
  all: repeat match goal with
         | H : is_digit _ = true |- _ =>
             apply is_digit_clean in H; destruct H as [?H ?H]
         end.
  all: split; [|cbn; lia].
  all: cbn [app forallb].
  all: repeat match goal with H : _ = false |- _ => rewrite H end.
  all: reflexivity.
Qed.

(** X2: a string that [isValidFormat] accepts has five or six code units
    and is left as it is by [preprocessText]: the token shown and sent is
    the token that was tested. *)
Theorem X2_valid_token_is_normal_form :
  forall t,
    isValidFormat t = true ->
    preprocessText t = t /\ (5 <= length t <= 6)%nat.
Proof.
  intros t H. apply isValidFormat_grammar in H.
  destruct (token_clean t H) as [Hc Hl].
  split; [|exact Hl].
  rewrite preprocessText_normalize. apply normalize_clean, Hc.
Qed.

Lemma X2_witness :
  preprocessText (lit "M7-TD") = lit "M7-TD"
  /\ (5 <= length (lit "M7-TD") <= 6)%nat.
Proof.
  apply (X2_valid_token_is_normal_form (lit "M7-TD")).
  vm_compute; reflexivity.
Defined.

(** X3: every token of the room table is accepted by [isValidFormat] and
    unchanged by [preprocessText], so each room of the table can come out
    of the detection. *)
Theorem X3_table_tokens_are_detectable :
  forall t,
    getRoomId t <> None ->
    isValidFormat t = true /\ preprocessText t = t.
Proof.
  intros t H. apply getRoomId_known in H.
  unfold known_tokens in H. cbn [map In] in H.
  repeat (destruct H as [H|H];
          [subst t; split; vm_compute; reflexivity|]).
  contradiction.
Qed.

Lemma X3_witness :
  isValidFormat (lit "M14-TD") = true
  /\ preprocessText (lit "M14-TD") = lit "M14-TD".
Proof.
  apply (X3_table_tokens_are_detectable (lit "M14-TD")).
  vm_compute; discriminate.
Defined.

Lemma skipn_app_exact (A : Type) (p q : list A) :
  skipn (length p) (p ++ q) = q.
Proof. induction p; simpl; auto. Qed.

(** [s.endsWith(suffix)] is true exactly when [s] is some string
    followed by [suffix]. *)
Lemma endsWith_is_suffix :
  forall s suffix,
    endsWith s suffix = true <-> exists p, s = p ++ suffix.
Proof.
  intros s suffix. unfold endsWith. split.
  - intros H. apply andb_prop in H. destruct H as [_ H].
    apply str_eqb_eq in H.
    exists (firstn (length s - length suffix) s).
    rewrite <- H at 2. symmetry. apply firstn_skipn.
  - intros [p ->]. rewrite length_app.
    replace (length p + length suffix - length suffix)%nat
      with (length p) by lia.
    rewrite skipn_app_exact, str_eqb_refl, andb_true_r.
    apply Nat.leb_le. lia.
Qed.

(** X4: a valid token ends either in [-TP] or in [-TD], never in both:
    the colour that [sendToApi] picks on its "otherwise" branch is the
    colour of the tokens in [-TD]. *)
Theorem X4_valid_token_is_TP_or_TD :
  forall t,
    isValidFormat t = true ->
    endsWith t (lit "-TP") = negb (endsWith t (lit "-TD")).
Proof.
  intros t H. apply isValidFormat_grammar in H.
  destruct H as (ds & x & -> & Hlen & _ & Hx).
  destruct ds as [|d1 [|d2 [|d3 ds]]]; cbn in Hlen; try lia;
    destruct Hx; subst x; reflexivity.
Qed.

Lemma X4_witness :
  endsWith (lit "M9-TD") (lit "-TP")
  = negb (endsWith (lit "M9-TD") (lit "-TD")).
Proof.
  apply (X4_valid_token_is_TP_or_TD (lit "M9-TD")).
  vm_compute; reflexivity.
Defined.

(** X5: what [scan_lines] returns tells what the lines were: a token
    comes back only when some line is valid after preprocessing, it is
    the preprocessed form of the first such line and is itself valid, and
    the lines looked at are the lines up to that one; no token comes back
    only when every line has been looked at and none is valid. *)
Theorem X5_scan_lines_sound :
  forall lines,
    match scan_lines lines with
    | (seen, Some tok) =>
        isValidFormat tok = true
        /\ exists before line after,
             lines = before ++ line :: after
             /\ seen = before ++ [line]
             /\ tok = preprocessText line
             /\ forall l, In l before ->
                  isValidFormat (preprocessText l) = false
    | (seen, None) =>
        seen = lines
        /\ forall l, In l lines -> isValidFormat (preprocessText l) = false
    end.
Proof.
  induction lines as [|line rest IH]; cbn [scan_lines].
  - split; [reflexivity | intros l []].
  - destruct (isValidFormat (preprocessText line)) eqn:E.
    + split; [exact E|]. exists [], line, rest.
      repeat split; try reflexivity. intros l [].
    + destruct (scan_lines rest) as [seen [tok|]].
      * destruct IH as (Hv & before & l0 & after & -> & -> & -> & Hb).
        split; [exact Hv|]. exists (line :: before), l0, after.
        repeat split; try reflexivity.
        intros l [<-|Hl]; [exact E | apply Hb, Hl].
      * destruct IH as [-> Hall]. split; [reflexivity|].
        intros l [<-|Hl]; [exact E | apply Hall, Hl].
Qed.

Lemma split_acc_length sep cur s :
  length (split_acc sep cur s) = S (count_occ N.eq_dec s sep).
Proof.
  revert cur; induction s as [|c s IH]; intros cur; [reflexivity|].
  cbn [split_acc count_occ].
  destruct (N.eqb_spec c sep) as [->|Hne].
  - destruct (N.eq_dec sep sep); [|congruence]. cbn [length]. rewrite IH.
    reflexivity.
  - destruct (N.eq_dec c sep); [congruence|]. apply IH.
Qed.

Lemma split_acc_no_sep_single sep cur s :
  ~ In sep s -> split_acc sep cur s = [rev cur ++ s].
Proof.
  revert cur; induction s as [|c s IH]; intros cur H; cbn [split_acc].
  - rewrite app_nil_r. reflexivity.
  - destruct (N.eqb_spec c sep) as [->|Hne]; [contradiction H; left; auto|].
    rewrite IH by (intros F; apply H; right; exact F).
    cbn [rev]. rewrite <- app_assoc. reflexivity.
Qed.

(** [split] gives one piece more than there are separators in the
    string, and a text without a newline is one line, the text itself. *)
Lemma split_counts_separators :
  forall sep s,
    length (split sep s) = S (count_occ N.eq_dec s sep)
    /\ (~ In sep s -> split sep s = [s]).
Proof.
  intros sep s. split; [apply split_acc_length|].
  intros H. unfold split. rewrite split_acc_no_sep_single by exact H.
  reflexivity.
Qed.

(* ===================================================================== *)
(** ** Further properties: the submission *)
(* ===================================================================== *)

(** X6: when the room is known and the response body is an array,
    whatever the status, [sendToApi] posts once and ends with the body in
    [day] and [calendarEvents], the calendar open and the loading flag
    off; the other state is untouched. *)
Theorem X6_array_response_opens_calendar :
  forall t id e st items s,
    getRoomId t = Some id ->
    http e = HttpResponse st (JArr items) ->
    reduce s (sendToApi t e)
      = mkSnapshot (extractedText s) (isAnalyzing s) (hasValidResult s)
          (isFrontCamera s) (JArr items) true (JArr items) false
    /\ length (filter is_post (sendToApi t e)) = 1%nat
    /\ modal_isOpen (render (reduce s (sendToApi t e))) = true.
Proof.
  intros t id e st items s Hid Hh.
  assert (E : sendToApi t e
      = [SetIsLoading true;
         HttpPost (today e)
           [mkRoom id t (if endsWith t (lit "-TP") then lit "#FFFFBF"
                         else lit "#FFD7B0")];
         SetDay (JArr items); ConsoleLog (MsgApiResponse (JArr items));
         SetCalendarEvents (JArr items); SetIsCalendarOpen true;
         SetIsLoading false]).
  { unfold sendToApi. rewrite Hid, Hh.
    pose proof (getRoomId_nonzero t id Hid) as Hz.
    apply Z.eqb_neq in Hz. rewrite Hz. reflexivity. }
  rewrite E. repeat split; reflexivity.
Qed.

Lemma X6_witness :
  reduce initial_snapshot
         (sendToApi (lit "M06-TP")
            (mkEffectEnv (lit "2025-01-15") (HttpResponse 404 (JArr []))))
  = mkSnapshot [] false false false (JArr []) true (JArr []) false.
Proof.
  apply (X6_array_response_opens_calendar (lit "M06-TP") 43372
           (mkEffectEnv (lit "2025-01-15") (HttpResponse 404 (JArr [])))
           404 [] initial_snapshot); reflexivity.
Defined.

(** X7: when the room is known and the response body is truthy but not
    an array, whatever the status, [sendToApi] stores the body in [day],
    logs it as the answer and stops: no error is logged, the calendar is
    not touched and the loading flag stays on. *)
Theorem X7_non_array_body_is_stored :
  forall t id e st data s,
    getRoomId t = Some id ->
    http e = HttpResponse st data ->
    truthy data = true -> isArray data = false ->
    reduce s (sendToApi t e)
      = mkSnapshot (extractedText s) (isAnalyzing s) (hasValidResult s)
          (isFrontCamera s) data (isCalendarOpen s) (calendarEvents s) true
    /\ existsb (fun ev => match ev with ConsoleError _ => true
                                      | _ => false end)
               (sendToApi t e) = false.
Proof.
  intros t id e st data s Hid Hh Ht Ha.
  assert (E : sendToApi t e
      = [SetIsLoading true;
         HttpPost (today e)
           [mkRoom id t (if endsWith t (lit "-TP") then lit "#FFFFBF"
                         else lit "#FFD7B0")];
         SetDay data; ConsoleLog (MsgApiResponse data)]).
  { unfold sendToApi. rewrite Hid, Hh, Ht, Ha.
    pose proof (getRoomId_nonzero t id Hid) as Hz.
    apply Z.eqb_neq in Hz. rewrite Hz. reflexivity. }
  rewrite E. split; reflexivity.
Qed.

Lemma X7_witness :
  day (reduce initial_snapshot
         (sendToApi (lit "M06-TP")
            (mkEffectEnv (lit "2025-01-15")
               (HttpResponse 200 (JObj [(lit "error", JBool true)])))))
  = JObj [(lit "error", JBool true)].
Proof.
  refine (f_equal day
            (proj1 (X7_non_array_body_is_stored (lit "M06-TP") 43372
                      (mkEffectEnv (lit "2025-01-15")
                         (HttpResponse 200 (JObj [(lit "error", JBool true)])))
                      200 (JObj [(lit "error", JBool true)]) initial_snapshot
                      eq_refl eq_refl eq_refl eq_refl))).
Defined.

Lemma sendToApi_frame t e s :
  extractedText (reduce s (sendToApi t e)) = extractedText s
  /\ hasValidResult (reduce s (sendToApi t e)) = hasValidResult s
  /\ isAnalyzing (reduce s (sendToApi t e)) = isAnalyzing s
  /\ isFrontCamera (reduce s (sendToApi t e)) = isFrontCamera s.
Proof.
  unfold sendToApi.
  destruct (getRoomId t) as [id|]; [|repeat split; reflexivity].
  destruct (id =? 0); [repeat split; reflexivity|].
  destruct (http e) as [|st data]; [repeat split; reflexivity|].
  destruct (truthy data); cbn [negb andb]; [|repeat split; reflexivity].
  destruct (isArray data); repeat split; reflexivity.
Qed.

(** X8: the effect on [extractedText] never writes [extractedText],
    [hasValidResult], [isAnalyzing] or [isFrontCamera]: a submission
    cannot start another submission, and after any handler the component
    holds the text the handler left. *)
Theorem X8_submission_does_not_retrigger :
  forall c r evs fx,
    let c' := fst (commit c r evs fx) in
    extractedText (state c') = extractedText (reduce (state c) evs)
    /\ hasValidResult (state c') = hasValidResult (reduce (state c) evs)
    /\ isAnalyzing (state c') = isAnalyzing (reduce (state c) evs)
    /\ isFrontCamera (state c') = isFrontCamera (reduce (state c) evs)
    /\ snd (commit c' (refs c') [] fx) = [].
Proof.
  intros c r evs fx. unfold commit. cbn [fst snd state refs app].
  set (s1 := reduce (state c) evs).
  assert (F : forall fxe,
            extractedText (reduce s1 (extractedText_effect s1 fxe))
              = extractedText s1
            /\ hasValidResult (reduce s1 (extractedText_effect s1 fxe))
              = hasValidResult s1
            /\ isAnalyzing (reduce s1 (extractedText_effect s1 fxe))
              = isAnalyzing s1
            /\ isFrontCamera (reduce s1 (extractedText_effect s1 fxe))
              = isFrontCamera s1).
  { intros fxe. unfold extractedText_effect.
    destruct (truthy_str (extractedText s1));
      [apply sendToApi_frame | repeat split; reflexivity]. }
  assert (R : forall s, reduce s [] = s) by reflexivity.
  rewrite !R.
  destruct (str_eqb (extractedText (state c)) (extractedText s1)).
  - rewrite !R, str_eqb_refl. repeat split; reflexivity.
  - destruct (F fx) as (F1 & F2 & F3 & F4).
    rewrite F1, F2, F3, F4, str_eqb_refl. repeat split; reflexivity.
Qed.

(* ===================================================================== *)
(** ** Further properties: one attempt *)
(* ===================================================================== *)

Lemma js_succ_gt_20 c : (js_succ c >? 20) = (20 <=? c).
Proof.
  unfold js_succ. destruct (Z.ltb_spec c 9007199254740992);
    destruct (Z.leb_spec 20 c);
    [apply Z.gtb_lt; lia | | apply Z.gtb_lt; lia | lia].
  destruct (Z.gtb_spec (c + 1) 20); [lia | reflexivity].
Qed.

Lemma reinitializeWorker_starts_with_log r e :
  exists rest, snd (reinitializeWorker r e) = ConsoleLog MsgReinit :: rest.
Proof.
  unfold reinitializeWorker.
  destruct (match workerRef r with
            | Some _ => negb (terminate_ok e) | None => false end);
    [eexists; reflexivity|].
  destruct (create_and_configure r e) as [[r1 evs] ok].
  destruct ok; eexists; reflexivity.
Qed.

(** X9: with a worker, a frame and no valid result in its closure,
    [analyzeFrame] hands the frame to the engine exactly when at most
    10 000 ms have passed since the last success or fewer than twenty
    attempts were counted before this one; otherwise it runs
    [reinitializeWorker] and nothing else. *)
Theorem X9_watchdog_threshold :
  forall snap r w frame e,
    workerRef r = Some w ->
    truthy_str frame = true ->
    hasValidResult snap = false ->
    (existsb is_recognize (snd (analyzeFrame snap r frame e)) = true
     <-> (now e - lastSuccessRef r <= 10000 \/ analysisCountRef r < 20))
    /\ (now e - lastSuccessRef r > 10000 -> 20 <= analysisCountRef r ->
        analyzeFrame snap r frame e
        = reinitializeWorker
            (set_analysisCount r (js_succ (analysisCountRef r))) (reinit e)).
Proof.
  intros snap r w frame e Hw Hf Hv.
  unfold analyzeFrame. rewrite Hw, Hf, Hv. cbn [negb orb].
  cbn [set_analysisCount lastSuccessRef analysisCountRef].
  rewrite js_succ_gt_20.
  destruct (Z.gtb_spec (now e - lastSuccessRef r) 10000) as [Ht|Ht];
    destruct (Z.leb_spec 20 (analysisCountRef r)) as [Hc|Hc];
    cbn [andb].
  - split; [|reflexivity].
    rewrite reinitializeWorker_no_recognize. split; [discriminate | lia].
  - split; [|lia].
    split; [intros _; lia | intros _].
    destruct (ocr e) as [|t]; [reflexivity|].
    destruct (snd (scan_lines _)); reflexivity.
  - split; [|lia].
    split; [intros _; lia | intros _].
    destruct (ocr e) as [|t]; [reflexivity|].
    destruct (snd (scan_lines _)); reflexivity.
  - split; [|lia].
    split; [intros _; lia | intros _].
    destruct (ocr e) as [|t]; [reflexivity|].
    destruct (snd (scan_lines _)); reflexivity.
Qed.

(** At exactly 10 000 ms the watchdog does not fire, however many
    attempts were counted. *)
Lemma X9_witness :
  existsb is_recognize
    (snd (analyzeFrame initial_snapshot
            (mkRefs true true (Some 1%nat) None 0 500)
            (lit "data:image/jpeg")
            (mkAnalyzeEnv 10000 (working_setup 2%nat 0) OcrThrows))) = true.
Proof.
  apply (proj1 (X9_watchdog_threshold initial_snapshot
                  (mkRefs true true (Some 1%nat) None 0 500) 1%nat
                  (lit "data:image/jpeg")
                  (mkAnalyzeEnv 10000 (working_setup 2%nat 0) OcrThrows)
                  eq_refl eq_refl eq_refl)).
  left. vm_compute. discriminate.
Defined.

Lemma reinitializeWorker_no_success r e :
  existsb is_success (snd (reinitializeWorker r e)) = false.
Proof.
  unfold reinitializeWorker, create_and_configure.
  destruct (workerRef r), (terminate_ok e), (created e),
    (loadLanguage_ok e), (initialize_ok e), (setParameters_ok e);
    reflexivity.
Qed.

Lemma scan_lines_valid lines tok :
  snd (scan_lines lines) = Some tok -> isValidFormat tok = true.
Proof.
  induction lines as [|line rest IH]; cbn [scan_lines]; [discriminate|].
  destruct (isValidFormat (preprocessText line)) eqn:E.
  - cbn. intros H. inversion H. subst tok. exact E.
  - destruct (scan_lines rest) as [seen found]. exact IH.
Qed.

(** X10: a call of [analyzeFrame] that reports a result records the time
    of the call as the last success and writes a valid token, but it does
    not reset the attempt counter, which has just been incremented: the
    counter counts the attempts since the worker was last re-created. *)
Theorem X10_success_keeps_the_count :
  forall snap r frame e,
    existsb is_success (snd (analyzeFrame snap r frame e)) = true ->
    let r' := fst (analyzeFrame snap r frame e) in
    lastSuccessRef r' = now e
    /\ analysisCountRef r' = js_succ (analysisCountRef r)
    /\ workerRef r' = workerRef r
    /\ exists tok,
         In (SetExtractedText tok) (snd (analyzeFrame snap r frame e))
         /\ isValidFormat tok = true.
Proof.
  intros snap r frame e. unfold analyzeFrame.
  destruct (workerRef r) as [w|] eqn:Hw; [|discriminate].
  destruct (negb (truthy_str frame) || hasValidResult snap); [discriminate|].
  match goal with |- context [if ?b then _ else _] => destruct b end.
  - rewrite reinitializeWorker_no_success. discriminate.
  - destruct (ocr e) as [|t]; [discriminate|].
    destruct (snd (scan_lines _)) as [tok|] eqn:Es; [|discriminate].
    intros _. cbn [fst snd]. repeat split; try exact Hw.
    exists tok. split; [cbn; auto | exact (scan_lines_valid _ tok Es)].
Qed.

Lemma X10_witness :
  analysisCountRef
    (fst (analyzeFrame initial_snapshot
            (mkRefs true true (Some 1%nat) None 0 7)
            (lit "data:image/jpeg")
            (mkAnalyzeEnv 4000 (working_setup 2%nat 0)
                          (OcrText (Some (lit "M03-TP"))))))
  = js_succ 7.
Proof.
  apply (X10_success_keeps_the_count initial_snapshot
           (mkRefs true true (Some 1%nat) None 0 7)
           (lit "data:image/jpeg")
           (mkAnalyzeEnv 4000 (working_setup 2%nat 0)
                         (OcrText (Some (lit "M03-TP"))))).
  vm_compute; reflexivity.
Defined.

Lemma reinitializeWorker_events_ok r e :
  forallb tick_event_ok (snd (reinitializeWorker r e)) = true.
Proof.
  unfold reinitializeWorker, create_and_configure.
  destruct (workerRef r), (terminate_ok e), (created e),
    (loadLanguage_ok e), (initialize_ok e), (setParameters_ok e);
    reflexivity.
Qed.

Lemma analyzeFrame_events_ok snap r frame e :
  forallb tick_event_ok (snd (analyzeFrame snap r frame e)) = true.
Proof.
  unfold analyzeFrame.
  destruct (workerRef r) as [w|]; [|reflexivity].
  destruct (negb (truthy_str frame) || hasValidResult snap); [reflexivity|].
  match goal with |- context [if ?b then _ else _] => destruct b end;
    [apply reinitializeWorker_events_ok|].
  destruct (ocr e) as [|t]; [reflexivity|].
  destruct (snd (scan_lines _)) as [tok|] eqn:Es; [|reflexivity].
  cbn [snd forallb tick_event_ok negb andb].
  rewrite (scan_lines_valid _ tok Es). reflexivity.
Qed.

(** X11: whatever the engine reads and whatever fails, a run of the loop
    callback only logs, draws, talks to the OCR engine, clears its own
    interval, and writes three things: a token that [isValidFormat]
    accepts, [hasValidResult] true and [isAnalyzing] false.  It never
    touches the camera, never posts, never starts a timer and never sets
    [isAnalyzing] to true. *)
Theorem X11_what_a_tick_may_do :
  forall snap r e,
    forallb tick_event_ok (snd (analyzeLoop snap r e)) = true.
Proof.
  intros snap r e. unfold analyzeLoop, captureFrame.
  destruct (hasValidResult snap); [reflexivity|].
  assert (P : forall r1 evs1,
            forallb tick_event_ok evs1 = true ->
            forallb tick_event_ok
              (snd (let '(frameData, evs2) :=
                      if negb (videoRef r1) || negb (canvasRef r1)
                         || match workerRef r1 with
                            | Some _ => false | None => true end
                         || false
                      then (None, [])
                      else (Some (dataURL e), [DrawImage; ToDataURL]) in
                    match frameData with
                    | Some f =>
                        if truthy_str f then
                          let '(r2, evs3) :=
                            analyzeFrame snap r1 f (analyze e) in
                          (r2, evs1 ++ evs2 ++ evs3)
                        else (r1, evs1 ++ evs2)
                    | None => (r1, evs1 ++ evs2)
                    end)) = true).
  { intros r1 evs1 H1.
    destruct (negb (videoRef r1) || negb (canvasRef r1)
              || match workerRef r1 with Some _ => false | None => true end
              || false).
    - cbn [snd]. rewrite app_nil_r. exact H1.
    - destruct (truthy_str (dataURL e)).
      + pose proof (analyzeFrame_events_ok snap r1 (dataURL e) (analyze e))
          as A.
        destruct (analyzeFrame snap r1 (dataURL e) (analyze e))
          as [r2 evs3].
        cbn [snd] in *. rewrite !forallb_app, H1, A. reflexivity.
      + cbn [snd]. rewrite forallb_app, H1. reflexivity. }
  destruct (workerRef r) as [w|] eqn:Hw.
  - apply (P r []). reflexivity.
  - pose proof (reinitializeWorker_events_ok r (setup_missing e)) as R.
    destruct (reinitializeWorker r (setup_missing e)) as [r1 evs1].
    apply (P r1 evs1 R).
Qed.

(** X12: a tick that finds [workerRef] empty first tries to create a
    worker.  When that goes through, the same tick captures a frame and
    hands it to the new worker, and the attempt counter is 1 after it;
    when [createWorker] rejects, the tick captures nothing and leaves the
    references as they were. *)
Theorem X12_tick_recovers_a_missing_worker :
  forall snap r e,
    workerRef r = None ->
    videoRef r = true -> canvasRef r = true ->
    hasValidResult snap = false ->
    truthy_str (dataURL e) = true ->
    (forall w, setup_succeeds (setup_missing e) = true ->
               created (setup_missing e) = Some w ->
       In (Recognize w (dataURL e)) (snd (analyzeLoop snap r e))
       /\ existsb is_capture (snd (analyzeLoop snap r e)) = true
       /\ workerRef (fst (analyzeLoop snap r e)) = Some w
       /\ analysisCountRef (fst (analyzeLoop snap r e)) = 1)
    /\ (created (setup_missing e) = None ->
        fst (analyzeLoop snap r e) = r
        /\ existsb is_capture (snd (analyzeLoop snap r e)) = false
        /\ existsb is_recognize (snd (analyzeLoop snap r e)) = false).
Proof.
  intros snap r e Hw Hvid Hcan Hv Hd. split.
  - intros w Hok Hc.
    assert (R : reinitializeWorker r (setup_missing e)
                = (mkRefs (videoRef r) (canvasRef r) (Some w) (streamRef r)
                          (clock_after (setup_missing e)) 0,
                   [ConsoleLog MsgReinit; CreateWorker; LoadLanguage w;
                    Initialize w; SetParameters w])).
    { unfold setup_succeeds in Hok. rewrite Hc in Hok.
      apply andb_prop in Hok. destruct Hok as [Hok Hp].
      apply andb_prop in Hok. destruct Hok as [Hok Hi].
      apply andb_prop in Hok. destruct Hok as [_ Hl].
      unfold reinitializeWorker, create_and_configure.
      rewrite Hw, Hc, Hl, Hi, Hp. reflexivity. }
    unfold analyzeLoop. rewrite Hv, Hw, R. unfold captureFrame.
    cbn [videoRef canvasRef workerRef]. rewrite Hvid, Hcan, Hv.
    cbn [negb orb]. rewrite Hd. unfold analyzeFrame.
    cbn [workerRef]. rewrite Hd, Hv. cbn [negb orb].
    cbn [set_analysisCount lastSuccessRef analysisCountRef].
    change (js_succ 0 >? 20) with false. rewrite andb_false_r.
    destruct (ocr (analyze e)) as [|t].
    + cbn. repeat split; auto 12.
    + destruct (snd (scan_lines _)); cbn; repeat split; auto 12.
  - intros Hc.
    unfold analyzeLoop, reinitializeWorker, create_and_configure,
      captureFrame.
    rewrite Hv, Hw, Hc. cbn [negb orb app]. rewrite Hw.
    rewrite !orb_true_r. cbn. repeat split; reflexivity.
Qed.

Lemma X12_witness :
  analysisCountRef
    (fst (analyzeLoop initial_snapshot (initial_refs 0)
            (reading 600 (lit "noise")))) = 1.
Proof.
  apply (proj1 (X12_tick_recovers_a_missing_worker initial_snapshot
                  (initial_refs 0) (reading 600 (lit "noise"))
                  eq_refl eq_refl eq_refl eq_refl eq_refl) 3%nat);
    reflexivity.
Defined.

(* ===================================================================== *)
(** ** Further properties: the references across the steps *)
(* ===================================================================== *)

Lemma refs_kept_refl r : refs_kept r r.
Proof. unfold refs_kept; auto. Qed.

Lemma refs_kept_trans r1 r2 r3 :
  refs_kept r1 r2 -> refs_kept r2 r3 -> refs_kept r1 r3.
Proof.
  unfold refs_kept. intros (A1 & A2 & A3 & A4) (B1 & B2 & B3 & B4).
  split; [congruence|]. split; [congruence|]. split.
  - intros H. apply B3, A3, H.
  - intros H. apply B4, A4, H.
Qed.

Lemma js_succ_in_range c :
  0 <= c <= 9007199254740992 -> 0 <= js_succ c <= 9007199254740992.
Proof.
  unfold js_succ. destruct (Z.ltb_spec c 9007199254740992); lia.
Qed.

Lemma reinitializeWorker_kept r e :
  refs_kept r (fst (reinitializeWorker r e)).
Proof.
  unfold reinitializeWorker, create_and_configure, refs_kept,
    count_in_range.
  destruct (workerRef r) eqn:Hw, (terminate_ok e), (created e),
    (loadLanguage_ok e), (initialize_ok e), (setParameters_ok e);
    cbn; rewrite ?Hw; repeat split; try discriminate; auto; lia.
Qed.

Lemma analyzeFrame_kept snap r frame e :
  refs_kept r (fst (analyzeFrame snap r frame e)).
Proof.
  unfold analyzeFrame.
  destruct (workerRef r) as [w|] eqn:Hw; [|apply refs_kept_refl].
  destruct (negb (truthy_str frame) || hasValidResult snap);
    [apply refs_kept_refl|].
  assert (K : refs_kept r
                (set_analysisCount r (js_succ (analysisCountRef r)))).
  { unfold refs_kept, count_in_range. cbn.
    split; [reflexivity|]. split; [reflexivity|]. split; [auto|].
    apply js_succ_in_range. }
  match goal with |- context [if ?b then _ else _] => destruct b end.
  - eapply refs_kept_trans; [exact K | apply reinitializeWorker_kept].
  - destruct (ocr e) as [|t]; [exact K|].
    destruct (snd (scan_lines _)); [|exact K].
    eapply refs_kept_trans; [exact K|].
    unfold refs_kept, count_in_range. cbn. auto.
Qed.

Lemma analyzeLoop_kept snap r e :
  refs_kept r (fst (analyzeLoop snap r e)).
Proof.
  unfold analyzeLoop.
  destruct (hasValidResult snap); [apply refs_kept_refl|].
  assert (P : forall r1 evs1,
            refs_kept r r1 ->
            refs_kept r
              (fst (let '(frameData, evs2) :=
                      captureFrame snap r1 (dataURL e) in
                    match frameData with
                    | Some f =>
                        if truthy_str f then
                          let '(r2, evs3) :=
                            analyzeFrame snap r1 f (analyze e) in
                          (r2, evs1 ++ evs2 ++ evs3)
                        else (r1, evs1 ++ evs2)
                    | None => (r1, evs1 ++ evs2)
                    end))).
  { intros r1 evs1 K.
    destruct (captureFrame snap r1 (dataURL e)) as [[f|] evs2]; [|exact K].
    destruct (truthy_str f); [|exact K].
    pose proof (analyzeFrame_kept snap r1 f (analyze e)) as A.
    destruct (analyzeFrame snap r1 f (analyze e)) as [r2 evs3].
    eapply refs_kept_trans; [exact K | exact A]. }
  destruct (workerRef r) as [w|] eqn:Hw.
  - apply (P r []), refs_kept_refl.
  - pose proof (reinitializeWorker_kept r (setup_missing e)) as R.
    destruct (reinitializeWorker r (setup_missing e)) as [r1 evs1].
    apply (P r1 evs1 R).
Qed.

Lemma initializeCamera_kept snap r media :
  refs_kept r (fst (initializeCamera snap r media)).
Proof.
  unfold initializeCamera. destruct media; [|apply refs_kept_refl].
  unfold refs_kept, count_in_range. cbn. auto.
Qed.

Lemma commit_refs c r evs fx : refs (fst (commit c r evs fx)) = r.
Proof. reflexivity. Qed.

Lemma step_refs_kept c c' : step c c' -> refs_kept (refs c) (refs c').
Proof.
  intros [i e fx | j media fx | fx | e fx | e fx].
  - unfold tick.
    destruct (nth_error (intervals c) i) as [[snap|snap|snap]|];
      try apply refs_kept_refl.
    pose proof (analyzeLoop_kept snap (refs c) e) as K.
    destruct (analyzeLoop snap (refs c) e) as [r evs].
    pose proof (commit_refs c r evs fx) as R.
    destruct (commit c r evs fx) as [c1 all]. cbn [fst] in *.
    destruct (existsb is_clear evs); cbn [fst refs]; rewrite R; exact K.
  - unfold fire_timeout.
    destruct (nth_error (timeouts c) j) as [[snap|snap|snap]|];
      try apply refs_kept_refl.
    pose proof (initializeCamera_kept snap (refs c) media) as K.
    destruct (initializeCamera snap (refs c) media) as [r evs].
    rewrite commit_refs. exact K.
  - apply refs_kept_refl.
  - unfold click_resetAnalysis, resetAnalysis.
    pose proof (reinitializeWorker_kept (refs c) e) as K.
    destruct (reinitializeWorker (refs c) e) as [r evs].
    rewrite commit_refs. exact K.
  - unfold close_modal, onClose.
    pose proof (reinitializeWorker_kept (refs c) e) as K.
    destruct (reinitializeWorker (refs c) e) as [r evs].
    rewrite commit_refs. exact K.
Qed.



(** X14: in every component that the mount, the timers and the buttons
    can produce, the attempt counter lies between 0 and 2^53, where a
    JavaScript number still counts exactly, and the references of the
    video and the canvas are in place. *)
Theorem X14_counter_stays_in_range :
  forall c,
    reachable c ->
    count_in_range (refs c)
    /\ videoRef (refs c) = true /\ canvasRef (refs c) = true.
Proof.
  intros c R.
  induction R as [mounted tess media fx | c i e fx _ IH | c j media fx _ IH
                  | c fx _ IH | c e fx _ IH | c e fx _ IH].
  - unfold count_in_range.
    unfold mount, initializeTesseract, create_and_configure,
      initializeCamera.
    destruct (created tess), (loadLanguage_ok tess), (initialize_ok tess),
      (setParameters_ok tess), media; cbn; repeat split; lia.
  - destruct (step_refs_kept c _ (step_tick c i e fx)) as (K1 & K2 & _ & K4).
    destruct IH as (I1 & I2 & I3). repeat split; try congruence; auto.
    all: apply K4; exact I1.
  - destruct (step_refs_kept c _ (step_timeout c j media fx))
      as (K1 & K2 & _ & K4).
    destruct IH as (I1 & I2 & I3). repeat split; try congruence; auto.
    all: apply K4; exact I1.
  - exact IH.
  - destruct (step_refs_kept c _ (step_reset c e fx)) as (K1 & K2 & _ & K4).
    destruct IH as (I1 & I2 & I3). repeat split; try congruence; auto.
    all: apply K4; exact I1.
  - destruct (step_refs_kept c _ (step_close c e fx)) as (K1 & K2 & _ & K4).
    destruct IH as (I1 & I2 & I3). repeat split; try congruence; auto.
    all: apply K4; exact I1.
Qed.

Lemma X14_witness :
  count_in_range
    (refs (fst (tick (fst (mount 0 (working_setup 1%nat 100)
                             (Some [7%nat]) demo_fx))
                     0 (reading 600 (lit "noise")) demo_fx))).
Proof.
  apply (X14_counter_stays_in_range
           (fst (tick (fst (mount 0 (working_setup 1%nat 100)
                              (Some [7%nat]) demo_fx))
                      0 (reading 600 (lit "noise")) demo_fx))).
  apply reach_tick, reach_mount.
Defined.

(* ===================================================================== *)
(** ** Further properties: loops, timers and the camera button *)
(* ===================================================================== *)

Lemma step_intervals c c' :
  Forall blind (intervals c) ->
  step c c' ->
  exists more, intervals c' = intervals c ++ more /\ Forall blind more.
Proof.
  intros B [i e fx | j media fx | fx | e fx | e fx].
  - exists []. rewrite tick_keeps_loops by exact B.
    rewrite app_nil_r. split; [reflexivity | constructor].
  - unfold fire_timeout.
    destruct (nth_error (timeouts c) j) as [[snap|snap|snap]|].
    + pose proof (blind_initializeCamera snap (refs c) media) as K.
      destruct (initializeCamera snap (refs c) media) as [r evs].
      rewrite commit_intervals. cbn [intervals snd] in *.
      eexists; split; [reflexivity | exact K].
    + rewrite commit_intervals. cbn [intervals].
      eexists; split; [reflexivity | apply blind_startAnalysis].
    + exists []. cbn. rewrite app_nil_r. split; [reflexivity|constructor].
    + exists []. cbn. rewrite app_nil_r. split; [reflexivity|constructor].
  - exists []. unfold click_toggleCamera. rewrite commit_intervals.
    split; [reflexivity | constructor].
  - unfold click_resetAnalysis, resetAnalysis.
    pose proof (reinitializeWorker_no_timer (refs c) e) as T.
    destruct (reinitializeWorker (refs c) e) as [r evs]. cbn [snd] in T.
    destruct (no_timer_events evs T) as [N _].
    rewrite commit_intervals. cbn [app new_intervals].
    rewrite new_intervals_app, N. exists []. split; [reflexivity|constructor].
  - unfold close_modal, onClose.
    pose proof (reinitializeWorker_no_timer (refs c) e) as T.
    destruct (reinitializeWorker (refs c) e) as [r evs]. cbn [snd] in T.
    destruct (no_timer_events evs T) as [N _].
    rewrite commit_intervals. cbn [app new_intervals].
    rewrite new_intervals_app, N. cbn [app].
    eexists; split; [reflexivity | apply blind_startAnalysis].
Qed.

(** X15: the loops of a reachable component only pile up.  Whatever tick,
    timeout or button comes next, every live interval stays live, in its
    place, and the intervals that are added are again built around a
    render without a valid result; in particular their number never goes
    down. *)
Theorem X15_loops_only_accumulate :
  forall c c',
    reachable c -> step c c' ->
    (exists more, intervals c' = intervals c ++ more /\ Forall blind more)
    /\ (length (intervals c) <= length (intervals c'))%nat.
Proof.
  intros c c' R S.
  destruct (step_intervals c c' (reachable_loops_blind c R) S)
    as (more & E & B).
  split; [exists more; split; assumption|].
  rewrite E, length_app. lia.
Qed.

(** Two presses of the camera button with a camera that answers: two
    loops run side by side. *)
Lemma X15_witness :
  (length (intervals (fst (mount 0 (working_setup 1%nat 100)
                             (Some [7%nat]) demo_fx)))
   <= length (intervals
                (fst (fire_timeout
                        (fst (click_toggleCamera
                                (fst (mount 0 (working_setup 1%nat 100)
                                        (Some [7%nat]) demo_fx)) demo_fx))
                        0 (Some [8%nat]) demo_fx))))%nat.
Proof.
  eapply Nat.le_trans.
  - apply (X15_loops_only_accumulate
             (fst (mount 0 (working_setup 1%nat 100) (Some [7%nat]) demo_fx))
             (fst (click_toggleCamera
                     (fst (mount 0 (working_setup 1%nat 100)
                             (Some [7%nat]) demo_fx)) demo_fx))).
    + apply reach_mount.
    + apply step_toggle.
  - vm_compute. apply Nat.leb_le. reflexivity.
Defined.

Lemma not_in_request b evs :
  existsb is_request evs = false -> ~ In (GetUserMedia b) evs.
Proof.
  induction evs as [|ev evs IH]; [intros _ []|].
  cbn [existsb]. intros H. apply orb_false_iff in H. destruct H as [H1 H2].
  intros [->|F]; [discriminate H1 | exact (IH H2 F)].
Qed.

Lemma fire_timeout_camera c j snap media fx :
  nth_error (timeouts c) j = Some (CbInitializeCamera snap) ->
  exists fx_evs,
    snd (fire_timeout c j media fx)
    = snd (initializeCamera snap (refs c) media) ++ fx_evs
    /\ existsb is_request fx_evs = false
    /\ existsb is_stop fx_evs = false
    /\ refs (fst (fire_timeout c j media fx))
       = fst (initializeCamera snap (refs c) media)
    /\ intervals (fst (fire_timeout c j media fx))
       = intervals c
           ++ new_intervals (snd (initializeCamera snap (refs c) media)).
Proof.
  intros H. unfold fire_timeout. rewrite H.
  destruct (initializeCamera snap (refs c) media) as [r evs].
  unfold commit. cbn [fst snd refs intervals state].
  eexists. split; [reflexivity|].
  match goal with
  | |- context [if str_eqb ?a ?b then _ else _] => destruct (str_eqb a b)
  end.
  - repeat split; reflexivity.
  - match goal with
    | |- context [extractedText_effect ?s ?e] =>
        destruct (effect_no_camera s e) as [E1 E2]
    end.
    rewrite E1, E2. repeat split; reflexivity.
Qed.

(** X16: the stream that a press of the camera button asks for is the
    one of before the press.  The press flips [isFrontCamera] and the
    label of the button, but the scheduled [initializeCamera] belongs to
    the render of the press: it requests the facing mode that was on
    screen then, and never the one the state now holds. *)
Theorem X16_toggle_requests_the_old_facing_mode :
  forall c fx media fx2,
    let c1 := fst (click_toggleCamera c fx) in
    let evs := snd (fire_timeout c1 (length (timeouts c)) media fx2) in
    isFrontCamera (state c1) = negb (isFrontCamera (state c))
    /\ toggle_label (render (state c1)) <> toggle_label (render (state c))
    /\ In (GetUserMedia (isFrontCamera (state c))) evs
    /\ ~ In (GetUserMedia (isFrontCamera (state c1))) evs.
Proof.
  intros c fx media fx2 c1 evs.
  assert (Hs : state c1
               = mkSnapshot [] false false (negb (isFrontCamera (state c)))
                   (day (state c)) (isCalendarOpen (state c))
                   (calendarEvents (state c)) (isLoading (state c))).
  { unfold c1, click_toggleCamera.
    destruct (commit_state_empty c (refs c) (toggleCamera (state c)) fx
                eq_refl) as [-> _].
    reflexivity. }
  assert (Ht : nth_error (timeouts c1) (length (timeouts c))
               = Some (CbInitializeCamera (state c))).
  { unfold c1, click_toggleCamera, commit, toggleCamera.
    cbn [fst timeouts new_timeouts]. apply nth_error_snoc. }
  destruct (fire_timeout_camera c1 (length (timeouts c)) (state c) media fx2
              Ht) as (fx_evs & E & Q1 & _ & _).
  destruct (initializeCamera_order (state c) (refs c1) media)
    as (post & P & _ & Q2).
  fold evs in E. rewrite P in E.
  split; [rewrite Hs; reflexivity|].
  split.
  { rewrite Hs. unfold render. cbn [toggle_label isFrontCamera].
    destruct (isFrontCamera (state c)); cbn [negb]; discriminate. }
  split.
  { rewrite E. apply in_or_app. left. apply in_or_app. right. left.
    reflexivity. }
  rewrite E. rewrite Hs. cbn [isFrontCamera]. intros F.
  apply in_app_or in F. destruct F as [F|F];
    [|exact (not_in_request _ _ Q1 F)].
  apply in_app_or in F. destruct F as [F|F].
  - exact (not_in_request _ _ (existsb_map_stop _) F).
  - destruct F as [F|F]; [|exact (not_in_request _ _ Q2 F)].
    inversion F as [G]. destruct (isFrontCamera (state c)); discriminate G.
Qed.

Lemma new_timeouts_app evs1 evs2 :
  new_timeouts (evs1 ++ evs2) = new_timeouts evs1 ++ new_timeouts evs2.
Proof.
  induction evs1 as [|ev evs1 IH]; [reflexivity|].
  destruct ev; cbn; rewrite ?IH; reflexivity.
Qed.

Lemma reinitializeWorker_no_timeout r e :
  new_timeouts (snd (reinitializeWorker r e)) = [].
Proof.
  unfold reinitializeWorker, create_and_configure.
  destruct (workerRef r), (terminate_ok e), (created e),
    (loadLanguage_ok e), (initialize_ok e), (setParameters_ok e);
    reflexivity.
Qed.

(** X17: the restart button, which is on screen only in a render with a
    valid result, never starts a loop.  [resetAnalysis] schedules the
    [startAnalysis] of that render, whose guard then returns at once: the
    timeout leaves no trace and the intervals are the ones that were
    already live.  The same holds for the [startAnalysis] that the
    dismissal of the modal calls from such a render. *)
Theorem X17_restart_starts_no_loop :
  forall c e fx fx2 media heading shown button,
    panel (render (state c)) = ResultPanel heading shown button ->
    let c1 := fst (click_resetAnalysis c e fx) in
    let fired := fire_timeout c1 (length (timeouts c)) media fx2 in
    timeouts c1 = timeouts c ++ [CbStartAnalysis (state c)]
    /\ intervals c1 = intervals c
    /\ snd fired = []
    /\ intervals (fst fired) = intervals c
    /\ intervals (fst (close_modal c e fx)) = intervals c.
Proof.
  intros c e fx fx2 media heading shown button Hp c1 fired.
  assert (Hv : hasValidResult (state c) = true).
  { unfold render in Hp. cbn [panel] in Hp.
    destruct (hasValidResult (state c)); [reflexivity | discriminate]. }
  pose proof (reinitializeWorker_no_timer (refs c) e) as T.
  pose proof (reinitializeWorker_no_timeout (refs c) e) as T'.
  assert (H1 : timeouts c1 = timeouts c ++ [CbStartAnalysis (state c)]
               /\ intervals c1 = intervals c).
  { unfold c1, click_resetAnalysis, resetAnalysis.
    destruct (reinitializeWorker (refs c) e) as [r evs]. cbn [snd] in T, T'.
    destruct (no_timer_events evs T) as [N _].
    unfold commit. cbn [fst timeouts intervals app new_timeouts
                        new_intervals].
    rewrite new_timeouts_app, new_intervals_app, N, T'. cbn.
    rewrite app_nil_r. split; reflexivity. }
  destruct H1 as (Ht & Hi).
  split; [exact Ht|]. split; [exact Hi|].
  assert (Hf : fired = commit (mkComponent (state c1) (refs c1)
                                 (intervals c1)
                                 (remove_nth (length (timeouts c))
                                    (timeouts c1)))
                         (refs c1) [] fx2).
  { unfold fired, fire_timeout. rewrite Ht, nth_error_snoc.
    unfold startAnalysis. rewrite Hv. reflexivity. }
  rewrite Hf. unfold commit. cbn [fst snd state intervals reduce fold_left
                                  new_intervals app].
  rewrite str_eqb_refl, app_nil_r, Hi.
  split; [reflexivity|]. split; [reflexivity|].
  unfold close_modal, onClose, startAnalysis. rewrite Hv.
  destruct (reinitializeWorker (refs c) e) as [r evs]. cbn [snd] in T.
  destruct (no_timer_events evs T) as [N _].
  rewrite commit_intervals. cbn [app new_intervals].
  rewrite new_intervals_app, N. cbn. apply app_nil_r.
Qed.

Lemma X17_witness :
  snd (fire_timeout
         (fst (click_resetAnalysis demo_component (working_setup 2%nat 9000)
                 demo_fx))
         (length (timeouts demo_component)) None demo_fx) = [].
Proof.
  apply (X17_restart_starts_no_loop demo_component
           (working_setup 2%nat 9000) demo_fx demo_fx None
           heading_detected (lit "M03-TP") label_restart).
  reflexivity.
Defined.

Lemma reduce_stops s tracks : reduce s (map TrackStop tracks) = s.
Proof. induction tracks; cbn; auto. Qed.

Lemma commit_keeps_text c r evs fx :
  extractedText (state (fst (commit c r evs fx)))
  = extractedText (reduce (state c) evs)
  /\ hasValidResult (state (fst (commit c r evs fx)))
     = hasValidResult (reduce (state c) evs)
  /\ isAnalyzing (state (fst (commit c r evs fx)))
     = isAnalyzing (reduce (state c) evs).
Proof.
  unfold commit. cbn [fst state].
  destruct (str_eqb _ _); [repeat split; reflexivity|].
  unfold extractedText_effect.
  destruct (truthy_str _); [|repeat split; reflexivity].
  match goal with
  | |- context [sendToApi ?t ?e] =>
      destruct (sendToApi_frame t e (reduce (state c) evs))
        as (F1 & F2 & F3 & _)
  end.
  rewrite F1, F2, F3. repeat split; reflexivity.
Qed.

(** X18: the text written when the camera is refused is not shown as an
    error.  When [initializeCamera] fails in a component without a valid
    result, the screen keeps its status line, the text is only handed to
    the closed-or-open modal as a prop, no loop is started and the
    references stay as they were; at mount the screen then reads that the
    analysis is being prepared, with no spinner and no loop. *)
Theorem X18_camera_failure_is_not_displayed :
  (forall c j snap fx,
     nth_error (timeouts c) j = Some (CbInitializeCamera snap) ->
     hasValidResult (state c) = false ->
     let c' := fst (fire_timeout c j None fx) in
     extractedText (state c') = camera_error_text
     /\ panel (render (state c')) = panel (render (state c))
     /\ modal_extractedText (render (state c')) = camera_error_text
     /\ intervals c' = intervals c
     /\ refs c' = refs c)
  /\ (forall mounted tess fx,
        let c := fst (mount mounted tess None fx) in
        panel (render (state c)) = StatusPanel false text_preparing
        /\ extractedText (state c) = camera_error_text
        /\ intervals c = []).
Proof.
  split.
  - intros c j snap fx Ht Hv c'.
    assert (R : forall s,
              reduce s (snd (initializeCamera snap (refs c) None))
              = set_state s (SetExtractedText camera_error_text)).
    { intros s. unfold initializeCamera, stopCurrentStream. cbn [snd].
      rewrite reduce_app.
      replace (reduce s match streamRef (refs c) with
                        | Some tracks => map TrackStop tracks
                        | None => []
                        end) with s
        by (destruct (streamRef (refs c));
            [symmetry; apply reduce_stops | reflexivity]).
      reflexivity. }
    assert (N : new_intervals (snd (initializeCamera snap (refs c) None))
                = []).
    { unfold initializeCamera, stopCurrentStream. cbn [snd].
      rewrite new_intervals_app.
      destruct (streamRef (refs c)) as [tracks|]; [|reflexivity].
      induction tracks; cbn; auto. }
    unfold c', fire_timeout. rewrite Ht.
    destruct (commit_keeps_text
                (mkComponent (state c) (refs c) (intervals c)
                             (remove_nth j (timeouts c)))
                (fst (initializeCamera snap (refs c) None))
                (snd (initializeCamera snap (refs c) None)) fx)
      as (K1 & K2 & K3).
    cbn [state] in K1, K2, K3. rewrite R in K1, K2, K3.
    cbn [set_state extractedText hasValidResult isAnalyzing] in K1, K2, K3.
    destruct (initializeCamera snap (refs c) None) as [r evs] eqn:E.
    cbn [fst snd] in *.
    assert (Er : r = refs c) by (unfold initializeCamera in E;
                                 inversion E; reflexivity).
    rewrite commit_intervals, commit_refs. cbn [intervals].
    rewrite N, app_nil_r.
    unfold render. cbn [panel modal_extractedText].
    rewrite K1, K2, K3, Hv. repeat split; auto.
  - intros mounted tess fx c.
    unfold c, mount, initializeTesseract, create_and_configure.
    destruct (created tess), (loadLanguage_ok tess), (initialize_ok tess),
      (setParameters_ok tess); repeat split; reflexivity.
Qed.

Lemma X18_witness :
  panel (render (state (fst (fire_timeout
                               (fst (click_toggleCamera
                                       (fst (mount 0
                                               (working_setup 1%nat 100)
                                               (Some [7%nat]) demo_fx))
                                       demo_fx))
                               0 None demo_fx))))
  = StatusPanel false text_preparing.
Proof.
  refine (eq_trans
            (proj1 (proj2 (proj1 X18_camera_failure_is_not_displayed
               (fst (click_toggleCamera
                       (fst (mount 0 (working_setup 1%nat 100)
                               (Some [7%nat]) demo_fx)) demo_fx))
               0%nat
               (state (fst (mount 0 (working_setup 1%nat 100)
                              (Some [7%nat]) demo_fx)))
               demo_fx eq_refl eq_refl))) _).
  reflexivity.
Defined.

(* ===================================================================== *)
(** ** Further properties: unmount and the text on screen *)
(* ===================================================================== *)






Lemma valid_not_empty t : isValidFormat t = true -> t <> [].
Proof. intros H ->. discriminate H. Qed.

Lemma analyzeFrame_text snap r frame e s :
  let s' := reduce s (snd (analyzeFrame snap r frame e)) in
  (extractedText s' = extractedText s
   /\ hasValidResult s' = hasValidResult s)
  \/ (isValidFormat (extractedText s') = true /\ hasValidResult s' = true).
Proof.
  cbv zeta. unfold analyzeFrame.
  destruct (workerRef r) as [w|]; [|left; split; reflexivity].
  destruct (negb (truthy_str frame) || hasValidResult snap);
    [left; split; reflexivity|].
  match goal with |- context [if ?b then _ else _] => destruct b end.
  - rewrite reinitializeWorker_quiet. left; split; reflexivity.
  - destruct (ocr e) as [|t]; [left; split; reflexivity|].
    destruct (snd (scan_lines _)) as [tok|] eqn:Es;
      [|left; split; reflexivity].
    right. cbn. split; [exact (scan_lines_valid _ tok Es) | reflexivity].
Qed.

Lemma analyzeLoop_text snap r e s :
  let s' := reduce s (snd (analyzeLoop snap r e)) in
  (extractedText s' = extractedText s
   /\ hasValidResult s' = hasValidResult s)
  \/ (isValidFormat (extractedText s') = true /\ hasValidResult s' = true).
Proof.
  cbv zeta. unfold analyzeLoop.
  destruct (hasValidResult snap) eqn:Hv; [left; split; reflexivity|].
  assert (P : forall r1 evs1,
            (forall s0, reduce s0 evs1 = s0) ->
            let s' :=
              reduce s
                (snd (let '(frameData, evs2) :=
                        captureFrame snap r1 (dataURL e) in
                      match frameData with
                      | Some f =>
                          if truthy_str f then
                            let '(r2, evs3) :=
                              analyzeFrame snap r1 f (analyze e) in
                            (r2, evs1 ++ evs2 ++ evs3)
                          else (r1, evs1 ++ evs2)
                      | None => (r1, evs1 ++ evs2)
                      end)) in
            (extractedText s' = extractedText s
             /\ hasValidResult s' = hasValidResult s)
            \/ (isValidFormat (extractedText s') = true
                /\ hasValidResult s' = true)).
  { intros r1 evs1 Q. cbv zeta. unfold captureFrame. rewrite Hv.
    destruct (negb (videoRef r1) || negb (canvasRef r1)
              || match workerRef r1 with Some _ => false | None => true end
              || false).
    - cbn [snd]. rewrite app_nil_r, Q. left; split; reflexivity.
    - destruct (truthy_str (dataURL e)).
      + pose proof (analyzeFrame_text snap r1 (dataURL e) (analyze e) s)
          as A.
        destruct (analyzeFrame snap r1 (dataURL e) (analyze e))
          as [r2 evs3].
        cbv zeta in A. cbn [snd] in *. rewrite reduce_app, Q, reduce_app.
        exact A.
      + cbn [snd]. rewrite reduce_app, Q. left; split; reflexivity. }
  destruct (workerRef r) as [w|] eqn:Hw.
  - apply (P r []). reflexivity.
  - pose proof (reinitializeWorker_quiet r (setup_missing e)) as Q.
    destruct (reinitializeWorker r (setup_missing e)) as [r1 evs1].
    cbn [snd] in Q. apply (P r1 evs1). intros s0. apply Q.
Qed.

Lemma initializeCamera_text snap r media s :
  let s' := reduce s (snd (initializeCamera snap r media)) in
  hasValidResult s' = hasValidResult s
  /\ (extractedText s' = extractedText s
      \/ extractedText s' = camera_error_text).
Proof.
  cbv zeta. unfold initializeCamera, stopCurrentStream.
  assert (S : reduce s match streamRef r with
                       | Some tracks => map TrackStop tracks
                       | None => []
                       end = s)
    by (destruct (streamRef r); [apply reduce_stops | reflexivity]).
  destruct media as [stream|]; cbn [snd]; rewrite reduce_app, S.
  - unfold startAnalysis.
    destruct (videoRef r), (hasValidResult snap); cbn; auto.
  - cbn. auto.
Qed.

(** What the result zone can show. *)
Lemma text_invariant_step (P := fun s : Snapshot =>
    text_ok (extractedText s)
    /\ (hasValidResult s = true -> extractedText s <> [])) c r evs fx :
  P (reduce (state c) evs) -> P (state (fst (commit c r evs fx))).
Proof.
  destruct (commit_keeps_text c r evs fx) as (K1 & K2 & _).
  unfold P. rewrite K1, K2. auto.
Qed.

(** X20: in every component that the mount, the timers and the buttons
    can produce, [extractedText] is empty, or the camera-failure text, or
    a token that [isValidFormat] accepts; and while [hasValidResult] is
    true it is not empty, so the result zone never shows an empty
    token. *)
Theorem X20_text_on_screen :
  forall c,
    reachable c ->
    text_ok (extractedText (state c))
    /\ (hasValidResult (state c) = true -> extractedText (state c) <> []).
Proof.
  intros c R.
  induction R as [mounted tess media fx | c i e fx _ IH | c j media fx _ IH
                  | c fx _ IH | c e fx _ IH | c e fx _ IH].
  - unfold mount, initializeTesseract, create_and_configure.
    destruct (created tess), (loadLanguage_ok tess), (initialize_ok tess),
      (setParameters_ok tess), media; cbn; unfold text_ok;
      (split; [auto | discriminate]).
  - unfold tick.
    destruct (nth_error (intervals c) i) as [[snap|snap|snap]|];
      try exact IH.
    pose proof (analyzeLoop_text snap (refs c) e (state c)) as A.
    destruct (analyzeLoop snap (refs c) e) as [r evs]. cbn [snd] in A.
    pose proof (text_invariant_step c r evs fx) as T.
    destruct (commit c r evs fx) as [c1 all]. cbn [fst] in *.
    assert (G : text_ok (extractedText (state c1))
                /\ (hasValidResult (state c1) = true ->
                    extractedText (state c1) <> [])).
    { apply T. destruct A as [[A1 A2]|[A1 A2]].
      - rewrite A1, A2. exact IH.
      - split; [right; right; exact A1 | intros _].
        apply valid_not_empty, A1. }
    destruct (existsb is_clear evs); exact G.
  - unfold fire_timeout.
    destruct (nth_error (timeouts c) j) as [[snap|snap|snap]|];
      try exact IH.
    + pose proof (initializeCamera_text snap (refs c) media (state c))
        as (A1 & A2).
      destruct (initializeCamera snap (refs c) media) as [r evs].
      cbn [snd] in *. apply text_invariant_step. cbn [state].
      rewrite A1. destruct A2 as [A2|A2]; rewrite A2; [exact IH|].
      split; [right; left; reflexivity | intros _; discriminate].
    + apply text_invariant_step. cbn [state]. unfold startAnalysis.
      destruct (hasValidResult snap); exact IH.
  - unfold click_toggleCamera. apply text_invariant_step.
    cbn. split; [left; reflexivity | discriminate].
  - unfold click_resetAnalysis, resetAnalysis.
    pose proof (reinitializeWorker_quiet (refs c) e) as Q.
    destruct (reinitializeWorker (refs c) e) as [r evs]. cbn [snd] in Q.
    apply text_invariant_step.
    rewrite (reduce_reset_prefix (state c) evs _ Q).
    cbn. split; [left; reflexivity | discriminate].
  - unfold close_modal, onClose.
    pose proof (reinitializeWorker_quiet (refs c) e) as Q.
    destruct (reinitializeWorker (refs c) e) as [r evs]. cbn [snd] in Q.
    apply text_invariant_step.
    change ([SetIsCalendarOpen false; SetDay JNull; SetHasValidResult false;
             SetExtractedText []; SetIsAnalyzing true]
              ++ evs ++ startAnalysis (state c))
      with ([SetIsCalendarOpen false; SetDay JNull]
              ++ [SetHasValidResult false; SetExtractedText [];
                  SetIsAnalyzing true] ++ evs ++ startAnalysis (state c)).
    rewrite reduce_app, (reduce_reset_prefix _ evs _ Q).
    unfold startAnalysis.
    destruct (hasValidResult (state c)); cbn;
      (split; [left; reflexivity | discriminate]).
Qed.

Lemma X20_witness :
  text_ok
    (extractedText
       (state (fst (tick (fst (mount 0 (working_setup 1%nat 100)
                                 (Some [7%nat]) demo_fx))
                         0 (reading 600 three_lines) demo_fx)))).
Proof.
  apply (X20_text_on_screen
           (fst (tick (fst (mount 0 (working_setup 1%nat 100)
                              (Some [7%nat]) demo_fx))
                      0 (reading 600 three_lines) demo_fx))).
  apply reach_tick, reach_mount.
Defined.

(** X21: when the engine throws during a tick, the attempt is counted,
    the loop stays live and [isAnalyzing] is switched off: in a component
    without a valid result the screen then reads that the analysis is
    being prepared, without the spinner, although the loop goes on. *)
Theorem X21_engine_exception_switches_status_off :
  forall c i snap e fx w,
    nth_error (intervals c) i = Some (CbAnalyzeLoop snap) ->
    hasValidResult snap = false ->
    hasValidResult (state c) = false ->
    videoRef (refs c) = true -> canvasRef (refs c) = true ->
    workerRef (refs c) = Some w ->
    truthy_str (dataURL e) = true ->
    (now (analyze e) - lastSuccessRef (refs c) >? 10000)
      && (js_succ (analysisCountRef (refs c)) >? 20) = false ->
    ocr (analyze e) = OcrThrows ->
    let c' := fst (tick c i e fx) in
    panel (render (state c')) = StatusPanel false text_preparing
    /\ intervals c' = intervals c
    /\ analysisCountRef (refs c') = js_succ (analysisCountRef (refs c))
    /\ lastSuccessRef (refs c') = lastSuccessRef (refs c).
Proof.
  intros c i snap e fx w Hi Hv Hs Hvid Hcan Hw Hd Hwd Ho.
  assert (A : analyzeLoop snap (refs c) e
              = (set_analysisCount (refs c)
                   (js_succ (analysisCountRef (refs c))),
                 [DrawImage; ToDataURL; Recognize w (dataURL e);
                  ConsoleError MsgAnalysisError; SetIsAnalyzing false])).
  { unfold analyzeLoop. rewrite Hv, Hw. unfold captureFrame.
    rewrite Hvid, Hcan, Hw, Hv. cbn [negb orb]. rewrite Hd.
    unfold analyzeFrame. rewrite Hw, Hd, Hv. cbn [negb orb].
    cbn [set_analysisCount lastSuccessRef analysisCountRef].
    rewrite Hwd, Ho. reflexivity. }
  unfold tick. rewrite Hi, A.
  match goal with
  | |- context [commit c ?r ?evs fx] =>
      destruct (commit_keeps_text c r evs fx) as (K1 & K2 & K3);
      pose proof (commit_intervals c r evs fx) as KI;
      pose proof (commit_refs c r evs fx) as KR;
      destruct (commit c r evs fx) as [c1 all]
  end.
  cbn [fst snd existsb is_clear orb] in *.
  cbn in K2, K3. unfold render. cbn [panel].
  rewrite K2, K3, Hs, KI, KR. cbn. rewrite app_nil_r.
  repeat split; reflexivity.
Qed.

Lemma X21_witness :
  panel (render (state (fst (tick (fst (mount 0 (working_setup 1%nat 100)
                                          (Some [7%nat]) demo_fx))
                                  0
                                  (mkTickEnv (working_setup 3%nat 600)
                                     (lit "data:image/jpeg")
                                     (mkAnalyzeEnv 600
                                        (working_setup 2%nat 600)
                                        OcrThrows))
                                  demo_fx))))
  = StatusPanel false text_preparing.
Proof.
  apply (X21_engine_exception_switches_status_off
           (fst (mount 0 (working_setup 1%nat 100) (Some [7%nat]) demo_fx))
           0%nat initial_snapshot
           (mkTickEnv (working_setup 3%nat 600) (lit "data:image/jpeg")
              (mkAnalyzeEnv 600 (working_setup 2%nat 600) OcrThrows))
           demo_fx 1%nat); reflexivity.
Defined.

(* ===================================================================== *)
(** ** Further properties: the component without the submission *)
(* ===================================================================== *)

Lemma initializeTesseract_worker r e :
  created e = None -> fst (initializeTesseract r e) = r.
Proof.
  intros H. unfold initializeTesseract, create_and_configure. rewrite H.
  reflexivity.
Qed.

(** X22: in [components/CameraCapture.js], [reinitializeWorker] resets
    the attempt counter and the last-success time whenever [terminate]
    resolves, also when no new worker could be created.  In that case
    [workerRef] still holds the worker that has just been terminated, and
    the next attempt hands its frame to that worker. *)
Theorem X22_lite_reinit_resets_without_a_worker :
  forall snap r w e frame e2,
    workerRef r = Some w ->
    terminate_ok e = true ->
    created e = None ->
    truthy_str frame = true ->
    hasValidResult snap = false ->
    let r' := fst (fst (Lite.reinitializeWorker r e)) in
    snd (Lite.reinitializeWorker r e) = false
    /\ In (Terminate w) (snd (fst (Lite.reinitializeWorker r e)))
    /\ analysisCountRef r' = 0
    /\ lastSuccessRef r' = clock_after e
    /\ workerRef r' = Some w
    /\ In (Lite.Ev (Recognize w frame))
          (snd (Lite.analyzeFrame snap r' frame e2)).
Proof.
  intros snap r w e frame e2 Hw Ht Hc Hf Hv.
  assert (E : Lite.reinitializeWorker r e
              = (set_analysisCount (set_lastSuccess r (clock_after e)) 0,
                 [ConsoleLog MsgReinit; Terminate w; CreateWorker;
                  ConsoleError MsgTesseractInitError], false)).
  { unfold Lite.reinitializeWorker, initializeTesseract,
      create_and_configure. rewrite Hw, Ht, Hc. reflexivity. }
  cbv zeta. rewrite E. cbn [fst snd].
  split; [reflexivity|]. split; [cbn; auto|].
  split; [reflexivity|]. split; [reflexivity|]. split; [exact Hw|].
  unfold Lite.analyzeFrame.
  change (workerRef (set_analysisCount
                       (set_lastSuccess r (clock_after e)) 0))
    with (workerRef r).
  rewrite Hw, Hf, Hv.
  cbn [negb orb set_analysisCount set_lastSuccess analysisCountRef
       lastSuccessRef].
  change (js_succ 0 >? 20) with false. rewrite andb_false_r.
  destruct (ocr e2) as [|t]; [left; reflexivity|].
  destruct (Lite.scan_lines _) as [logs [tok|]]; left; reflexivity.
Qed.

Lemma X22_witness :
  analysisCountRef
    (fst (fst (Lite.reinitializeWorker
                 (mkRefs true true (Some 1%nat) None 0 21)
                 (failing_setup 12000)))) = 0.
Proof.
  apply (X22_lite_reinit_resets_without_a_worker initial_snapshot
           (mkRefs true true (Some 1%nat) None 0 21) 1%nat
           (failing_setup 12000) (lit "data:image/jpeg")
           (mkAnalyzeEnv 12500 (working_setup 2%nat 0) OcrThrows));
    reflexivity.
Defined.

Lemma lite_loop_without_worker snap r e :
  workerRef r = None ->
  fst (Lite.analyzeLoop snap r e) = r
  /\ existsb is_recognize (Lite.erase (snd (Lite.analyzeLoop snap r e)))
     = false
  /\ existsb is_create (Lite.erase (snd (Lite.analyzeLoop snap r e)))
     = false.
Proof.
  intros Hw. unfold Lite.analyzeLoop, captureFrame. rewrite Hw.
  destruct (hasValidResult snap); [repeat split; reflexivity|].
  rewrite !orb_true_r. repeat split; reflexivity.
Qed.

(** X23: in [components/CameraCapture.js] the loop does not look for a
    missing worker.  When [workerRef] is empty, as it is after
    [createWorker] has rejected at mount, no run of ticks, however long,
    creates a worker, calls the engine or changes a reference. *)
Theorem X23_lite_loop_never_recovers :
  forall snap r envs,
    workerRef r = None ->
    fold_left (fun r0 e => fst (Lite.analyzeLoop snap r0 e)) envs r = r
    /\ forall e,
         In e envs ->
         existsb is_recognize
           (Lite.erase (snd (Lite.analyzeLoop snap r e))) = false
         /\ existsb is_create
              (Lite.erase (snd (Lite.analyzeLoop snap r e))) = false.
Proof.
  intros snap r envs Hw. split.
  - induction envs as [|e envs IH]; [reflexivity|].
    cbn [fold_left].
    rewrite (proj1 (lite_loop_without_worker snap r e Hw)). exact IH.
  - intros e _. apply (lite_loop_without_worker snap r e Hw).
Qed.

Lemma X23_witness :
  fold_left (fun r0 e => fst (Lite.analyzeLoop initial_snapshot r0 e))
            [reading 500 (lit "M03-TP"); reading 1000 (lit "M03-TP")]
            (initial_refs 0)
  = initial_refs 0.
Proof.
  apply (X23_lite_loop_never_recovers initial_snapshot (initial_refs 0)
           [reading 500 (lit "M03-TP"); reading 1000 (lit "M03-TP")]).
  reflexivity.
Defined.

Lemma lite_scan_lines lines :
  snd (Lite.scan_lines lines) = snd (scan_lines lines)
  /\ Lite.processed_logs (fst (Lite.scan_lines lines))
     = map preprocessText (fst (scan_lines lines))
  /\ Lite.erase (fst (Lite.scan_lines lines))
     = match snd (scan_lines lines) with
       | Some tok => [ConsoleLog (MsgValidFormat tok)]
       | None => []
       end.
Proof.
  induction lines as [|line rest IH]; [repeat split; reflexivity|].
  cbn [Lite.scan_lines scan_lines].
  destruct (isValidFormat (preprocessText line));
    [repeat split; reflexivity|].
  destruct (Lite.scan_lines rest) as [levs lfound].
  destruct (scan_lines rest) as [seen found].
  cbn [fst snd] in *. destruct IH as (I1 & I2 & I3).
  cbn [Lite.processed_logs Lite.erase map]. rewrite I2.
  repeat split; assumption.
Qed.

Lemma lite_erase_app a b :
  Lite.erase (a ++ b) = Lite.erase a ++ Lite.erase b.
Proof.
  induction a as [|ev a IH]; [reflexivity|].
  destruct ev; cbn; rewrite ?IH; reflexivity.
Qed.

(** X24: outside the watchdog branch the two versions of [analyzeFrame]
    do the same: they leave the same references and, the two extra
    console logs of [components/CameraCapture.js] apart, the same trace.
    The lines that version logs as processed are the preprocessed forms
    of the lines the loop has looked at, in order, up to the first valid
    one. *)
Theorem X24_both_versions_extract_alike :
  (forall snap r frame e,
     (now e - lastSuccessRef r >? 10000)
       && (js_succ (analysisCountRef r) >? 20) = false ->
     fst (Lite.analyzeFrame snap r frame e) = fst (analyzeFrame snap r frame e)
     /\ Lite.erase (snd (Lite.analyzeFrame snap r frame e))
        = snd (analyzeFrame snap r frame e))
  /\ (forall lines,
        Lite.processed_logs (fst (Lite.scan_lines lines))
        = map preprocessText (fst (scan_lines lines))).
Proof.
  split; [|intros lines; apply lite_scan_lines].
  intros snap r frame e Hwd.
  unfold Lite.analyzeFrame, analyzeFrame.
  destruct (workerRef r) as [w|]; [|split; reflexivity].
  destruct (negb (truthy_str frame) || hasValidResult snap);
    [split; reflexivity|].
  cbn [set_analysisCount lastSuccessRef analysisCountRef].
  rewrite Hwd.
  destruct (ocr e) as [|t]; [split; reflexivity|].
  match goal with
  | |- context [Lite.scan_lines ?l] =>
      destruct (lite_scan_lines l) as (L1 & _ & L3);
      destruct (Lite.scan_lines l) as [logs lfound]
  end.
  cbn [fst snd] in L1, L3. rewrite <- L1.
  destruct lfound as [tok|]; cbn [fst snd Lite.erase].
  - rewrite lite_erase_app, L3, <- L1. split; reflexivity.
  - rewrite L3, <- L1. split; reflexivity.
Qed.

Lemma X24_witness :
  Lite.erase
    (snd (Lite.analyzeFrame initial_snapshot demo_refs
            (lit "data:image/jpeg")
            (mkAnalyzeEnv 600 (working_setup 2%nat 0)
                          (OcrText (Some three_lines)))))
  = snd (analyzeFrame initial_snapshot demo_refs (lit "data:image/jpeg")
           (mkAnalyzeEnv 600 (working_setup 2%nat 0)
                         (OcrText (Some three_lines)))).
Proof.
  apply (proj1 X24_both_versions_extract_alike initial_snapshot demo_refs
           (lit "data:image/jpeg")
           (mkAnalyzeEnv 600 (working_setup 2%nat 0)
                         (OcrText (Some three_lines)))).
  reflexivity.
Defined.

(** X25: in [components/CameraCapture.js] a [terminate] that rejects is
    not caught by [reinitializeWorker].  When the watchdog fires,
    [analyzeFrame] catches it as an analysis error: [isAnalyzing] is
    switched off, the counter keeps its incremented value and the
    last-success time is unchanged, so the watchdog fires again at the
    next attempt.  In [resetAnalysis], from whatever render the button is
    pressed and whatever the counters hold, nothing catches it: the three
    setters have run, the references are unchanged and [startAnalysis] is
    never scheduled. *)
Theorem X25_lite_terminate_rejection :
  (forall snap r w frame e,
     workerRef r = Some w ->
     terminate_ok (reinit e) = false ->
     truthy_str frame = true ->
     hasValidResult snap = false ->
     now e - lastSuccessRef r > 10000 ->
     20 <= analysisCountRef r ->
     Lite.analyzeFrame snap r frame e
       = (set_analysisCount r (js_succ (analysisCountRef r)),
          [Lite.Ev (ConsoleLog MsgReinit); Lite.Ev (Terminate w);
           Lite.Ev (ConsoleError MsgAnalysisError);
           Lite.Ev (SetIsAnalyzing false)]))
  /\ (forall snap r w e,
        workerRef r = Some w ->
        terminate_ok e = false ->
        Lite.resetAnalysis snap r e
          = (r, [SetHasValidResult false; SetExtractedText [];
                 SetIsAnalyzing true; ConsoleLog MsgReinit; Terminate w])
        /\ new_timeouts (snd (Lite.resetAnalysis snap r e)) = []).
Proof.
  split.
  - intros snap r w frame e Hw Ht Hf Hv Htime Hc.
    unfold Lite.analyzeFrame. rewrite Hw, Hf, Hv. cbn [negb orb].
    cbn [set_analysisCount lastSuccessRef analysisCountRef].
    rewrite js_succ_gt_20.
    replace (now e - lastSuccessRef r >? 10000) with true
      by (symmetry; apply Z.gtb_lt; lia).
    replace (20 <=? analysisCountRef r) with true
      by (symmetry; apply Z.leb_le; exact Hc).
    cbn [andb]. unfold Lite.reinitializeWorker.
    cbn [workerRef set_analysisCount]. rewrite Hw, Ht. reflexivity.
  - intros snap r w e Hw Ht.
    unfold Lite.resetAnalysis, Lite.reinitializeWorker.
    rewrite Hw, Ht. split; reflexivity.
Qed.

(** The button pressed in the render that shows it, the one with a valid
    result, and the watchdog in the loop of the first render. *)
Lemma X25_witness :
  snd (Lite.resetAnalysis (state demo_component) (refs demo_component)
         (mkWorkerSetup false (Some 2%nat) true true true 12000))
  = [SetHasValidResult false; SetExtractedText []; SetIsAnalyzing true;
     ConsoleLog MsgReinit; Terminate 1%nat]
  /\ snd (Lite.analyzeFrame initial_snapshot
            (mkRefs true true (Some 1%nat) None 0 21)
            (lit "data:image/jpeg")
            (mkAnalyzeEnv 12000
               (mkWorkerSetup false (Some 2%nat) true true true 12000)
               OcrThrows))
     = [Lite.Ev (ConsoleLog MsgReinit); Lite.Ev (Terminate 1%nat);
        Lite.Ev (ConsoleError MsgAnalysisError);
        Lite.Ev (SetIsAnalyzing false)].
Proof.
  split.
  - refine (f_equal snd
              (proj1 (proj2 X25_lite_terminate_rejection
                        (state demo_component) (refs demo_component) 1%nat
                        (mkWorkerSetup false (Some 2%nat) true true true
                           12000)
                        eq_refl eq_refl))).
  - refine (f_equal snd
              (proj1 X25_lite_terminate_rejection initial_snapshot
                 (mkRefs true true (Some 1%nat) None 0 21) 1%nat
                 (lit "data:image/jpeg")
                 (mkAnalyzeEnv 12000
                    (mkWorkerSetup false (Some 2%nat) true true true 12000)
                    OcrThrows)
                 eq_refl eq_refl eq_refl eq_refl _ _)).
    + vm_compute; reflexivity.
    + vm_compute; discriminate.
Defined.
